(** * adore-me/daggerverse: the [gh] and [istio] Dagger modules

    A shallow embedding of [gh/dagger/main.go] (local branch creation, commit,
    pull-request creation) and [istio/dagger/main.go] (version comparison and
    ConfigMap rewrite), together with models of the library calls these
    functions are made of: go-git's reference store, worktree and commit
    operations, Masterminds/semver's parser and comparison, and the Dagger
    [Directory], [File] and [Secret] handles. *)

From stdpp Require Import gmap strings list fin_maps countable.
From stdpp Require pretty.
From Stdlib Require Import ZArith Ascii.

Set Default Proof Using "Type".
Local Open Scope string_scope.

(** ** Go's [(value, error)] results

    An [error] is represented by its [Error()] text, which is all that the
    [%v] and [%w] verbs of [fmt.Errorf] put into the wrapping message. *)

Definition error := string.

Inductive Result (A : Type) : Type :=
| Ok (a : A)
| Err (e : error).
Arguments Ok {A} a.
Arguments Err {A} e.

(** ** plumbing: hashes, reference names, references *)

Module plumbing.

(** A [plumbing.Hash] is a SHA-1 digest. The model takes the collision-free
    idealisation: the digest of an object is an injective code of its
    content ([hash_object] below); [ZeroHash] is the all-zero digest. *)
Definition Hash := N.
Definition ZeroHash : Hash := 0%N.

Definition ReferenceName := string.
Definition HEAD : ReferenceName := "HEAD".
Definition NewBranchReferenceName (name : string) : ReferenceName :=
  "refs/heads/" +:+ name.

Inductive Reference : Type :=
| HashReference (n : ReferenceName) (h : Hash)
| SymbolicReference (n : ReferenceName) (target : ReferenceName).

Definition NewHashReference (n : ReferenceName) (h : Hash) : Reference :=
  HashReference n h.
Definition NewSymbolicReference (n target : ReferenceName) : Reference :=
  SymbolicReference n target.

Definition Name (r : Reference) : ReferenceName :=
  match r with HashReference n _ => n | SymbolicReference n _ => n end.

(** [Reference.Hash()]: the zero hash on a symbolic reference. *)
Definition RefHash (r : Reference) : Hash :=
  match r with HashReference _ h => h | SymbolicReference _ _ => ZeroHash end.

(** What a reference store keeps under a reference's name: a hash, or the
    name of another reference. *)
Inductive RefContent : Type :=
| HashContent (h : Hash)
| SymbolicContent (target : ReferenceName).

Definition content_of (r : Reference) : RefContent :=
  match r with
  | HashReference _ h => HashContent h
  | SymbolicReference _ target => SymbolicContent target
  end.

Definition reference_at (n : ReferenceName) (c : RefContent) : Reference :=
  match c with
  | HashContent h => HashReference n h
  | SymbolicContent target => SymbolicReference n target
  end.

Definition ErrReferenceNotFound : error := "reference not found".
Definition ErrObjectNotFound : error := "object not found".
Definition ErrMaxResolveRecursion : error := "max. recursive level reached".
Definition MaxResolveRecursion : nat := 1024.

#[global] Instance Reference_eq_dec : EqDecision Reference.
Proof. solve_decision. Defined.
#[global] Instance RefContent_eq_dec : EqDecision RefContent.
Proof. solve_decision. Defined.

End plumbing.
Export plumbing.

(** ** object: signatures, commits, trees *)

Module object.

(** [object.Signature]; the module never sets [When], which stays at Go's
    zero time and is left out. *)
Record Signature : Type := mkSignature { SigName : string; SigEmail : string }.

Record Commit : Type := mkCommit {
  Author : Signature;
  Committer : Signature;
  Message : string;
  TreeHash : Hash;
  ParentHashes : list Hash
}.

(** A tree is flattened to the map from file path to file content. *)
Definition Tree := gmap string string.

Inductive Object : Type :=
| TreeObject (t : Tree)
| CommitObject (c : Commit).

#[global] Instance Signature_eq_dec : EqDecision Signature.
Proof. solve_decision. Defined.
#[global] Instance Commit_eq_dec : EqDecision Commit.
Proof. solve_decision. Defined.
#[global] Instance Object_eq_dec : EqDecision Object.
Proof. solve_decision. Defined.

#[global] Instance Signature_countable : Countable Signature.
Proof.
  refine (inj_countable' (fun s => (SigName s, SigEmail s))
            (fun p => mkSignature p.1 p.2) _).
  by intros [].
Defined.

#[global] Instance Commit_countable : Countable Commit.
Proof.
  refine (inj_countable'
            (fun c => (Author c, Committer c, Message c, TreeHash c, ParentHashes c))
            (fun p => mkCommit p.1.1.1.1 p.1.1.1.2 p.1.1.2 p.1.2 p.2) _).
  by intros [].
Defined.

#[global] Instance Object_countable : Countable Object.
Proof.
  refine (inj_countable'
            (fun o => match o with TreeObject t => inl t | CommitObject c => inr c end)
            (fun s => match s with inl t => TreeObject t | inr c => CommitObject c end) _).
  by intros [].
Defined.

(** The digest of an object: injective in the object, never [ZeroHash]. *)
Definition hash_object (o : Object) : Hash := Npos (encode o).

End object.
Export object.

(** ** git: the go-git operations the module calls

    The reference store follows go-git's map-backed storer (a write replaces
    whatever the name held before and cannot fail); faults of the file system
    under a repository enter only through [Export] and [PlainOpen]. Ignore
    files are not modelled: a worktree holds its non-ignored files. *)

Module git.

Record Storage : Type := mkStorage {
  References : gmap string RefContent;
  Objects : gmap N Object;
  Index : gmap string string
}.

(** [wt] is the worktree file system, [None] for a bare repository. *)
Record Repository : Type := mkRepository {
  Storer : Storage;
  wt : option (gmap string string)
}.

(** A [*Worktree] keeps a pointer to its repository: every worktree operation
    below returns the worktree with the repository as it left it, and the
    caller's [gitRepo] is [w_r] of that worktree from then on. *)
Record Worktree : Type := mkWorktree {
  w_r : Repository;
  Filesystem : gmap string string
}.

Definition ErrRepositoryNotExists : error := "repository does not exist".
Definition ErrIsBareRepository : error := "worktree not available in a bare repository".
Definition ErrUnstagedChanges : error := "worktree contains unstaged changes".
Definition ErrUnsupportedObject : error := "unsupported object type".
Definition ErrEmptyCommit : error := "cannot create empty commit: clean working tree".

Definition with_References (s : Storage) (refs : gmap string RefContent) : Storage :=
  {| References := refs; Objects := Objects s; Index := Index s |}.
Definition with_Objects (s : Storage) (objs : gmap N Object) : Storage :=
  {| References := References s; Objects := objs; Index := Index s |}.
Definition with_Index (s : Storage) (idx : gmap string string) : Storage :=
  {| References := References s; Objects := Objects s; Index := idx |}.
Definition with_Storer (r : Repository) (s : Storage) : Repository :=
  {| Storer := s; wt := wt r |}.

(** Writing through a worktree: the repository and the handle share the
    file system. *)
Definition with_repo (w : Worktree) (r : Repository) : Worktree :=
  {| w_r := r; Filesystem := Filesystem w |}.
Definition with_Filesystem (w : Worktree) (fs : gmap string string) : Worktree :=
  {| w_r := {| Storer := Storer (w_r w); wt := Some fs |}; Filesystem := fs |}.

(** [ReferenceStorer.Reference] *)
Definition Storer_Reference (s : Storage) (n : ReferenceName) : Result Reference :=
  match References s !! n with
  | Some c => Ok (reference_at n c)
  | None => Err ErrReferenceNotFound
  end.

(** [ReferenceStorer.SetReference] *)
Definition SetReference (s : Storage) (ref : Reference) : Result Storage :=
  Ok (with_References s (<[Name ref := content_of ref]> (References s))).

(** [storer.resolveReference]: [budget] is the number of symbolic hops still
    allowed, [S MaxResolveRecursion] at the start. *)
Fixpoint resolveReference (s : Storage) (r : Reference) (budget : nat) : Result Reference :=
  match r with
  | HashReference _ _ => Ok r
  | SymbolicReference _ target =>
      match budget with
      | O => Err ErrMaxResolveRecursion
      | S budget' =>
          match Storer_Reference s target with
          | Err e => Err e
          | Ok t => resolveReference s t budget'
          end
      end
  end.

Definition ResolveReference (s : Storage) (n : ReferenceName) : Result Reference :=
  match Storer_Reference s n with
  | Err e => Err e
  | Ok r => resolveReference s r (S MaxResolveRecursion)
  end.

(** [Repository.Reference(name, resolved)] *)
Definition Repository_Reference (r : Repository) (name : ReferenceName) (resolved : bool)
  : Result Reference :=
  if resolved then ResolveReference (Storer r) name else Storer_Reference (Storer r) name.

(** [Repository.Head()] *)
Definition Head (r : Repository) : Result Reference :=
  ResolveReference (Storer r) HEAD.

(** [Repository.Worktree()] *)
Definition Repository_Worktree (r : Repository) : Result Worktree :=
  match wt r with
  | None => Err ErrIsBareRepository
  | Some fs => Ok {| w_r := r; Filesystem := fs |}
  end.

(** [Repository.CommitObject] *)
Definition CommitObject_of (r : Repository) (h : Hash) : Result Commit :=
  match Objects (Storer r) !! h with
  | Some (CommitObject c) => Ok c
  | _ => Err ErrObjectNotFound
  end.

(** *** Checkout *)

(** The module fills in [Branch] only; [Hash], [Create], [Force] and [Keep]
    stay at their zero values, so the reset below is a merge reset. *)
Record CheckoutOptions : Type := mkCheckoutOptions { Branch : ReferenceName }.

Definition getCommitFromCheckoutOptions (r : Repository) (opts : CheckoutOptions)
  : Result Hash :=
  match Repository_Reference r (Branch opts) true with
  | Err e => Err e
  | Ok b =>
      match Objects (Storer r) !! RefHash b with
      | None => Err ErrObjectNotFound
      | Some (CommitObject _) => Ok (RefHash b)
      | Some (TreeObject _) => Err ErrUnsupportedObject
      end
  end.

Definition setHEADToBranch (r : Repository) (branch : ReferenceName) (commit : Hash)
  : Result Repository :=
  match Storer_Reference (Storer r) branch with
  | Err e => Err e
  | Ok target =>
      let head :=
        match target with
        | HashReference _ _ => NewSymbolicReference HEAD (Name target)
        | SymbolicReference _ _ => NewHashReference HEAD commit
        end in
      match SetReference (Storer r) head with
      | Err e => Err e
      | Ok s => Ok (with_Storer r s)
      end
  end.

(** A tracked file that the worktree has modified or deleted; files the index
    does not know (insertions) do not count. *)
Definition containsUnstagedChanges (w : Worktree) : bool :=
  negb (bool_decide (map_Forall (fun path content => Filesystem w !! path = Some content)
                       (Index (Storer (w_r w))))).

Definition setHEADCommit (r : Repository) (commit : Hash) : Result Repository :=
  match Storer_Reference (Storer r) HEAD with
  | Err e => Err e
  | Ok (HashReference _ _) =>
      match SetReference (Storer r) (NewHashReference HEAD commit) with
      | Err e => Err e
      | Ok s => Ok (with_Storer r s)
      end
  | Ok (SymbolicReference _ target) =>
      match Storer_Reference (Storer r) target with
      | Err e => Err e
      | Ok branch =>
          match SetReference (Storer r) (NewHashReference (Name branch) commit) with
          | Err e => Err e
          | Ok s => Ok (with_Storer r s)
          end
      end
  end.

Definition getTreeFromCommitHash (r : Repository) (commit : Hash) : Result (gmap string string) :=
  match CommitObject_of r commit with
  | Err e => Err e
  | Ok c =>
      match Objects (Storer r) !! TreeHash c with
      | Some (TreeObject t) => Ok t
      | _ => Err ErrObjectNotFound
      end
  end.

(** The files of the worktree that the index does not track. *)
Definition untracked (w : Worktree) : gmap string string :=
  filter (fun kv => Index (Storer (w_r w)) !! kv.1 = None) (Filesystem w).

(** [Worktree.Reset] with [Mode: MergeReset]. *)
Definition Reset (w : Worktree) (commit : Hash) : option error * Worktree :=
  if containsUnstagedChanges w then (Some ErrUnstagedChanges, w)
  else
    match setHEADCommit (w_r w) commit with
    | Err e => (Some e, w)
    | Ok r1 =>
        let w1 := with_repo w r1 in
        match getTreeFromCommitHash r1 commit with
        | Err e => (Some e, w1)
        | Ok t =>
            let keep := untracked w1 in
            let w2 := with_repo w1 (with_Storer r1 (with_Index (Storer r1) t)) in
            (None, with_Filesystem w2 (t ∪ keep))
        end
    end.

(** [Worktree.Checkout]: HEAD is moved to the branch before the reset looks
    at the worktree. *)
Definition Checkout (w : Worktree) (opts : CheckoutOptions) : option error * Worktree :=
  match getCommitFromCheckoutOptions (w_r w) opts with
  | Err e => (Some e, w)
  | Ok c =>
      match setHEADToBranch (w_r w) (Branch opts) c with
      | Err e => (Some e, w)
      | Ok r1 => Reset (with_repo w r1) c
      end
  end.

(** *** Add and Commit *)

(** [Worktree.Add(".")]: every addition, modification and deletion under the
    worktree root is staged, which leaves the index equal to the worktree. *)
Definition Worktree_Add (w : Worktree) : Result Hash * Worktree :=
  (Ok ZeroHash,
   with_repo w (with_Storer (w_r w) (with_Index (Storer (w_r w)) (Filesystem w)))).

(** The module fills in [All] and [Author]; [Committer], [Parents], [Amend]
    and [AllowEmptyCommits] stay at their zero values. *)
Record CommitOptions : Type := mkCommitOptions {
  All : bool;
  CommitAuthor : Signature
}.

(** go-git releases differ in when [Commit] refuses a commit that changes
    nothing while [AllowEmptyCommits] is unset: never; when the index has no
    entry; or when the tree built from the index is the tree of the first
    parent. The module's sources name no release, so the rule is a
    parameter of [Worktree_Commit]. *)
Inductive EmptyCommitRule : Type :=
| NeverRefuse
| RefuseEmptyIndex
| RefuseUnchangedTree.

(** [CommitOptions.Validate]: the parents default to the commit HEAD resolves
    to, and to none when HEAD names a branch that does not exist yet. *)
Definition Validate_Parents (r : Repository) : Result (list Hash) :=
  match Head r with
  | Ok head => Ok [RefHash head]
  | Err e => if decide (e = ErrReferenceNotFound) then Ok [] else Err e
  end.

(** [Worktree.autoAddModifiedAndDeleted]: tracked files take the worktree's
    content, tracked files the worktree lost leave the index. *)
Definition autoAddModifiedAndDeleted (w : Worktree) : Worktree :=
  with_repo w (with_Storer (w_r w)
    (with_Index (Storer (w_r w))
       (map_imap (fun path _ => Filesystem w !! path) (Index (Storer (w_r w)))))).

Definition store_object (r : Repository) (o : Object) : Repository :=
  with_Storer r (with_Objects (Storer r) (<[hash_object o := o]> (Objects (Storer r)))).

(** [Worktree.updateHEAD] *)
Definition updateHEAD (r : Repository) (commit : Hash) : Result Repository :=
  match Storer_Reference (Storer r) HEAD with
  | Err e => Err e
  | Ok head =>
      let name :=
        match head with
        | HashReference _ _ => HEAD
        | SymbolicReference _ target => target
        end in
      match SetReference (Storer r) (NewHashReference name commit) with
      | Err e => Err e
      | Ok s => Ok (with_Storer r s)
      end
  end.

(** The decision of the empty-commit rule on the index [idx] about to be
    committed on top of [parents]; [Some e] refuses with [e]. *)
Definition refuse_empty (rule : EmptyCommitRule) (r : Repository)
    (idx : gmap string string) (parents : list Hash) : option error :=
  match rule with
  | NeverRefuse => None
  | RefuseEmptyIndex =>
      if decide (idx = ∅) then Some ErrEmptyCommit else None
  | RefuseUnchangedTree =>
      match parents with
      | [] => if decide (idx = ∅) then Some ErrEmptyCommit else None
      | p :: _ =>
          match CommitObject_of r p with
          | Err e => Some e
          | Ok parentCommit =>
              if decide (hash_object (TreeObject idx) = TreeHash parentCommit)
              then Some ErrEmptyCommit else None
          end
      end
  end.

(** [Worktree.Commit(msg, opts)] *)
Definition Worktree_Commit (rule : EmptyCommitRule) (w : Worktree) (msg : string)
    (opts : CommitOptions) : Result Hash * Worktree :=
  match Validate_Parents (w_r w) with
  | Err e => (Err e, w)
  | Ok parents =>
      let w1 := if All opts then autoAddModifiedAndDeleted w else w in
      let idx := Index (Storer (w_r w1)) in
      match refuse_empty rule (w_r w1) idx parents with
      | Some e => (Err e, w1)
      | None =>
          let tree := TreeObject idx in
          let commit := CommitObject
            {| Author := CommitAuthor opts;
               Committer := CommitAuthor opts;
               Message := msg;
               TreeHash := hash_object tree;
               ParentHashes := parents |} in
          let r2 := store_object (store_object (w_r w1) tree) commit in
          match updateHEAD r2 (hash_object commit) with
          | Err e => (Err e, with_repo w1 r2)
          | Ok r3 => (Ok (hash_object commit), with_repo w1 r3)
          end
      end
  end.

End git.
Export git.

(** ** dagger: the handles a module receives *)

Module dagger.

(** A [*Directory] is an immutable snapshot. [Export] copies it to a local
    path, or fails; [dir_repo] is the git repository the copy holds, [None]
    when it holds none. *)
Record Directory : Type := mkDirectory {
  dir_export_error : option error;
  dir_repo : option Repository
}.

(** What lies at the local path after an export. *)
Definition LocalDir := option Repository.

Definition Export (d : Directory) (path : string) : Result LocalDir :=
  match dir_export_error d with
  | Some e => Err e
  | None => Ok (dir_repo d)
  end.

(** [git.PlainOpen] on an exported path. *)
Definition PlainOpen (l : LocalDir) : Result Repository :=
  match l with
  | Some r => Ok r
  | None => Err ErrRepositoryNotExists
  end.

Record Secret : Type := mkSecret { Plaintext : Result string }.

(** A [*File]: [Contents] answers with the content or fails, and [With]
    lets a callback replace the cached content. *)
Record File : Type := mkFile { Contents : Result string }.

End dagger.
Export dagger.

(** ** github: the part of go-github the module calls *)

Module github.

Record NewPullRequest : Type := mkNewPullRequest {
  Title : string;
  PRHead : string;
  Base : string
}.

(** [*github.Response]: the HTTP status and the body that is left to read. *)
Record Response : Type := mkResponse {
  StatusCode : Z;
  Body : string
}.

(** What [client.PullRequests.Create] hands back besides the pull request:
    the response, [None] for Go's [nil], and the error, [None] for [nil]. *)
Definition CreateResult : Type := (option Response * option error)%type.

(** The service behind an authenticated client:
    token, owner, repo, request. *)
Definition Service : Type := string -> string -> string -> NewPullRequest -> CreateResult.

End github.
Export github.

(** A Go call either returns or panics. *)
Inductive Outcome (A : Type) : Type :=
| Returns (a : A)
| Panics (msg : string).
Arguments Returns {A} a.
Arguments Panics {A} msg.

Definition nil_dereference : string :=
  "runtime error: invalid memory address or nil pointer dereference".

(** ** gh/dagger/main.go *)

Module Gh.

Record Gh : Type := mkGh {
  Owner : string;
  Repo : string;
  BaseBranch : string;
  Token : Secret;
  RepoPath : Directory
}.

(** [CreateLocalBranch]. The second component is the repository under
    [./<Repo>] as the call leaves it, [None] when it was never opened. *)
Definition CreateLocalBranch (m : Gh) (branchName : string)
  : Result string * option Repository :=
  match Export (RepoPath m) ("./" +:+ Repo m) with
  | Err err => (Err ("failed to export repository: " +:+ err), None)
  | Ok local =>
  (* Open the existing checked-out repository *)
  match PlainOpen local with
  | Err err => (Err ("failed to open repository: " +:+ err), None)
  | Ok gitRepo =>
  (* Check if the branch already exists *)
  match Repository_Reference gitRepo (NewBranchReferenceName (BaseBranch m)) true with
  | Err err => (Err ("failed to get reference: " +:+ err), Some gitRepo)
  | Ok _ =>
  (* Checkout the base branch *)
  match Repository_Worktree gitRepo with
  | Err err => (Err ("failed to get worktree: " +:+ err), Some gitRepo)
  | Ok wt =>
  (* [err = wt.Checkout(...)]: the next statement assigns [err] again
     before anything reads it *)
  let '(_, wt) :=
    Checkout wt {| Branch := NewBranchReferenceName (BaseBranch m) |} in
  let gitRepo := w_r wt in
  (* Create a new branch from the base branch *)
  match Head gitRepo with
  | Err err => (Err ("failed to get HEAD: " +:+ err), Some gitRepo)
  | Ok headRef =>
  let ref := NewHashReference (NewBranchReferenceName branchName) (RefHash headRef) in
  match SetReference (Storer gitRepo) ref with
  | Err err => (Err ("failed to set reference: " +:+ err), Some gitRepo)
  | Ok s =>
  (Ok ("created local branch " +:+ branchName), Some (with_Storer gitRepo s))
  end end end end end end.

(** [CommitChangesInNewBranch], over the empty-commit rule of the go-git
    release in use. *)
Definition CommitChangesInNewBranch (rule : EmptyCommitRule) (m : Gh)
    (commitTitle branchName : string) : Result string * option Repository :=
  match Export (RepoPath m) ("./" +:+ Repo m) with
  | Err err => (Err ("failed to export repository: " +:+ err), None)
  | Ok local =>
  (* Open the existing checked-out repository *)
  match PlainOpen local with
  | Err err => (Err ("failed to open repository: " +:+ err), None)
  | Ok gitRepo =>
  (* Create a new branchName *)
  match Head gitRepo with
  | Err err => (Err ("failed to get HEAD: " +:+ err), Some gitRepo)
  | Ok headRef =>
  let ref := NewHashReference (NewBranchReferenceName branchName) (RefHash headRef) in
  match SetReference (Storer gitRepo) ref with
  | Err err => (Err ("failed to set reference: " +:+ err), Some gitRepo)
  | Ok s =>
  let gitRepo := with_Storer gitRepo s in
  (* Create a new worktree for the repository *)
  match Repository_Worktree gitRepo with
  | Err err => (Err ("failed to get worktree: " +:+ err), Some gitRepo)
  | Ok wt =>
  (* Add all changes to the worktree *)
  match Worktree_Add wt with
  | (Err err, wt) => (Err ("failed to add changes: " +:+ err), Some (w_r wt))
  | (Ok _, wt) =>
  (* Commit the changes *)
  let cOpts :=
    {| All := true;
       CommitAuthor := {| SigName := "Dagger"; SigEmail := "mihai.g@adoreme.com" |} |} in
  match Worktree_Commit rule wt commitTitle cOpts with
  | (Err err, wt) => (Err ("failed to commit changes: " +:+ err), Some (w_r wt))
  | (Ok _, wt) => (Ok "successfully committed changes", Some (w_r wt))
  end end end end end end end.

Section CreatePullRequest.

(** The GitHub service the client talks to. *)
Variable service : Service.

(** What the [%v] verb prints for the [io.ReadCloser] in [rsp.Body]. *)
Variable Sprint_Body : string -> string.

(** [CreatePullRequest]. [rsp.Body] is evaluated as an argument of
    [fmt.Errorf]; on a [nil] response that selector panics. *)
Definition CreatePullRequest (m : Gh) (title newBranch baseBranch : string)
  : Outcome (Result string) :=
  match Plaintext (Token m) with
  | Err err => Returns (Err ("failed to get token: " +:+ err))
  | Ok token =>
  let baseBranch := if decide (baseBranch = "") then BaseBranch m else baseBranch in
  (* Create a pull request *)
  let newPR := {| Title := title; PRHead := newBranch; Base := baseBranch |} in
  let '(rsp, err) := service token (Owner m) (Repo m) newPR in
  match err with
  | Some err =>
      match rsp with
      | None => Panics nil_dereference
      | Some rsp =>
          Returns (Err ("failed to create pull request with error: " +:+ err
                        +:+ "." +:+ String "010" "More details in response: "
                        +:+ Sprint_Body (Body rsp)))
      end
  | None => Returns (Ok "successfully created the pull request")
  end end.

End CreatePullRequest.

End Gh.
Export Gh.

(** ** A sample repository *)

Module Sample.

Definition tree0 : gmap string string := {[ "README.md" := "hello" ]}.
Definition someone : Signature := {| SigName := "Someone"; SigEmail := "someone@example.com" |}.
Definition commit0 : Commit :=
  {| Author := someone; Committer := someone; Message := "init";
     TreeHash := hash_object (TreeObject tree0); ParentHashes := [] |}.
Definition h0 : Hash := hash_object (CommitObject commit0).

Definition storage0 : Storage :=
  {| References :=
       {[ "HEAD" := SymbolicContent "refs/heads/master";
          "refs/heads/master" := HashContent h0 ]};
     Objects :=
       {[ hash_object (TreeObject tree0) := TreeObject tree0;
          h0 := CommitObject commit0 ]};
     Index := tree0 |}.

(** A clean checkout of [master]. *)
Definition clean : Repository := {| Storer := storage0; wt := Some tree0 |}.

(** The same checkout after [README.md] was edited in the worktree. *)
Definition edited_fs : gmap string string := {[ "README.md" := "hello, world" ]}.
Definition edited : Repository := {| Storer := storage0; wt := Some edited_fs |}.

Definition gh_on (r : Repository) : Gh :=
  {| Owner := "adore-me"; Repo := "daggerverse"; BaseBranch := "master";
     Token := {| Plaintext := Ok "token" |};
     RepoPath := {| dir_export_error := None; dir_repo := Some r |} |}.

End Sample.

(** ** semver: github.com/Masterminds/semver (v1) *)

Module semver.

Record Version : Type := mkVersion {
  major : Z;
  minor : Z;
  patch : Z;
  pre : string;
  metadata : string;
  original : string
}.

Definition ErrInvalidSemVer : error := "Invalid Semantic Version".

Definition is_digit (c : ascii) : bool :=
  (48 <=? nat_of_ascii c)%nat && (nat_of_ascii c <=? 57)%nat.
Definition is_upper (c : ascii) : bool :=
  (65 <=? nat_of_ascii c)%nat && (nat_of_ascii c <=? 90)%nat.
Definition is_lower (c : ascii) : bool :=
  (97 <=? nat_of_ascii c)%nat && (nat_of_ascii c <=? 122)%nat.

(** The class [[0-9A-Za-z\-]] of the version pattern. *)
Definition is_ident_char (c : ascii) : bool :=
  is_digit c || is_upper c || is_lower c || bool_decide (c = "-"%char).

(** The longest prefix of [s] whose characters satisfy [p], and the rest. *)
Fixpoint span (p : ascii -> bool) (s : string) : string * string :=
  match s with
  | EmptyString => (EmptyString, EmptyString)
  | String c s' =>
      if p c then let '(a, b) := span p s' in (String c a, b)
      else (EmptyString, s)
  end.

Fixpoint all_chars (p : ascii -> bool) (s : string) : bool :=
  match s with
  | EmptyString => true
  | String c s' => p c && all_chars p s'
  end.

(** [strings.Split(s, ".")] *)
Fixpoint Split_dot (s : string) : list string :=
  match s with
  | EmptyString => [EmptyString]
  | String c s' =>
      match Split_dot s' with
      | part :: parts =>
          if bool_decide (c = "."%char) then EmptyString :: part :: parts
          else String c part :: parts
      | [] => []
      end
  end.

(** The decimal value of a string of digits. *)
Fixpoint digits_value (acc : Z) (s : string) : Z :=
  match s with
  | EmptyString => acc
  | String c s' => digits_value (10 * acc + (Z.of_nat (nat_of_ascii c) - 48)) s'
  end.

Definition quote (s : string) : string :=
  String "034" (s +:+ String "034" EmptyString).

(** The rest of [s] after the leading character [c], if [s] starts with it. *)
Definition strip_char (c : ascii) (s : string) : option string :=
  match s with
  | String c' s' => if bool_decide (c' = c) then Some s' else None
  | EmptyString => None
  end.

(** [strconv.ParseInt(s, 10, 64)]: an optional sign, then digits, within
    the range of [int64]. *)
Definition ParseInt (s : string) : Result Z :=
  let '(neg, digits) :=
    match strip_char "-" s with
    | Some rest => (true, rest)
    | None =>
        match strip_char "+" s with
        | Some rest => (false, rest)
        | None => (false, s)
        end
    end in
  if bool_decide (digits = EmptyString) || negb (all_chars is_digit digits) then
    Err ("strconv.ParseInt: parsing " +:+ quote s +:+ ": invalid syntax")
  else
    let un := digits_value 0 digits in
    if (un <=? (if neg then 9223372036854775808 else 9223372036854775807))%Z then
      Ok (if neg then (- un)%Z else un)
    else Err ("strconv.ParseInt: parsing " +:+ quote s +:+ ": value out of range").

(** [[0-9A-Za-z\-]+(\.[0-9A-Za-z\-]+)*] *)
Definition valid_identifiers (s : string) : bool :=
  forallb (fun part => negb (bool_decide (part = EmptyString)) && all_chars is_ident_char part)
          (Split_dot s).

(** An optional group [(\.[0-9]+)?]: the digits it captured, empty when the
    group did not take part, and the input that is left. *)
Definition optional_segment (s : string) : string * string :=
  match strip_char "." s with
  | Some s' =>
      let '(d, rest) := span is_digit s' in
      if bool_decide (d = EmptyString) then (EmptyString, s) else (d, rest)
  | None => (EmptyString, s)
  end.

(** The tail [(\+(meta))?$] of the pattern. *)
Definition match_metadata (s : string) : option string :=
  if bool_decide (s = EmptyString) then Some EmptyString
  else
    match strip_char "+" s with
    | Some meta => if valid_identifiers meta then Some meta else None
    | None => None
    end.

(** The submatches of
    [^v?([0-9]+)(\.[0-9]+)?(\.[0-9]+)?(-(pre))?(\+(meta))?$] on [v]:
    major, minor and patch digits (without their dots), prerelease and
    metadata; [None] when the pattern does not match. *)
Definition versionRegex (v : string)
  : option (string * string * string * string * string) :=
  let s := match strip_char "v" v with Some s' => s' | None => v end in
  let '(m1, s) := span is_digit s in
  if bool_decide (m1 = EmptyString) then None else
  let '(m2, s) := optional_segment s in
  let '(m3, s) := optional_segment s in
  match strip_char "-" s with
  | Some s' =>
      let '(p, s'') := span (fun c => negb (bool_decide (c = "+"%char))) s' in
      if valid_identifiers p then
        match match_metadata s'' with
        | Some meta => Some (m1, m2, m3, p, meta)
        | None => None
        end
      else None
  | None =>
      match match_metadata s with
      | Some meta => Some (m1, m2, m3, EmptyString, meta)
      | None => None
      end
  end.

Definition parse_segment (digits : string) : Result Z :=
  match ParseInt digits with
  | Ok n => Ok n
  | Err e => Err ("Error parsing version segment: " +:+ e)
  end.

(** [semver.NewVersion] *)
Definition NewVersion (v : string) : Result Version :=
  match versionRegex v with
  | None => Err ErrInvalidSemVer
  | Some (m1, m2, m3, p, meta) =>
      match parse_segment m1 with
      | Err e => Err e
      | Ok ma =>
      match (if bool_decide (m2 = EmptyString) then Ok 0%Z else parse_segment m2) with
      | Err e => Err e
      | Ok mi =>
      match (if bool_decide (m3 = EmptyString) then Ok 0%Z else parse_segment m3) with
      | Err e => Err e
      | Ok pa =>
          Ok {| major := ma; minor := mi; patch := pa;
                pre := p; metadata := meta; original := v |}
      end end end
  end.

(** [strconv.ParseUint(s, 10, 64)]: digits only, no sign, within the range
    of [uint64]. *)
Definition ParseUint (s : string) : Result Z :=
  if bool_decide (s = EmptyString) || negb (all_chars is_digit s) then
    Err ("strconv.ParseUint: parsing " +:+ quote s +:+ ": invalid syntax")
  else
    let un := digits_value 0 s in
    if (un <=? 18446744073709551615)%Z then Ok un
    else Err ("strconv.ParseUint: parsing " +:+ quote s +:+ ": value out of range").

Definition compareSegment (v o : Z) : Z :=
  if (v <? o)%Z then (-1)%Z else if (v >? o)%Z then 1%Z else 0%Z.

Definition string_gt (s o : string) : bool :=
  match String.compare s o with Gt => true | _ => false end.

(** [comparePrePart]: the parts are parsed as unsigned numbers, so that a
    part with a sign, or one beyond [uint64], counts as alphanumeric. *)
Definition comparePrePart (s o : string) : Z :=
  if bool_decide (s = o) then 0%Z
  else if bool_decide (s = EmptyString) then
    (if negb (bool_decide (o = EmptyString)) then (-1)%Z else 1%Z)
  else if bool_decide (o = EmptyString) then
    (if negb (bool_decide (s = EmptyString)) then 1%Z else (-1)%Z)
  else
    match ParseUint o, ParseUint s with
    | Err _, Err _ => if string_gt s o then 1%Z else (-1)%Z
    | Err _, Ok _ => (-1)%Z
    | Ok _, Err _ => 1%Z
    | Ok oi, Ok si => if (si >? oi)%Z then 1%Z else (-1)%Z
    end.

Fixpoint first_nonzero (ds : list Z) : Z :=
  match ds with
  | [] => 0%Z
  | d :: ds' => if (d =? 0)%Z then first_nonzero ds' else d
  end.

(** The loop runs over the longer of the two part lists and reads an empty
    part where the shorter one has ended. *)
Definition comparePrerelease (v o : string) : Z :=
  let sparts := Split_dot v in
  let oparts := Split_dot o in
  let l := if (length sparts <? length oparts)%nat then length oparts else length sparts in
  first_nonzero (zip_with comparePrePart (resize l EmptyString sparts)
                                         (resize l EmptyString oparts)).

(** [Version.Compare] *)
Definition Compare (v o : Version) : Z :=
  let d := compareSegment (major v) (major o) in
  if negb (d =? 0)%Z then d else
  let d := compareSegment (minor v) (minor o) in
  if negb (d =? 0)%Z then d else
  let d := compareSegment (patch v) (patch o) in
  if negb (d =? 0)%Z then d else
  let ps := pre v in
  let po := pre o in
  if bool_decide (ps = EmptyString) && bool_decide (po = EmptyString) then 0%Z
  else if bool_decide (ps = EmptyString) then 1%Z
  else if bool_decide (po = EmptyString) then (-1)%Z
  else comparePrerelease ps po.

End semver.
Export semver.

(** ** istio/dagger/main.go *)

Module Istio.

Record Annotations : Type := mkAnnotations {
  KustomizeToolkitFluxcdIoSsa : string
}.

Record Metadata : Type := mkMetadata {
  MetaName : string;
  Namespace : string;
  MetaAnnotations : Annotations
}.

Record Data : Type := mkData { DataVersion : string }.

Record IstioVersionCm : Type := mkIstioVersionCm {
  APIVersion : string;
  Kind : string;
  CmMetadata : Metadata;
  CmData : Data
}.

Record Istio : Type := mkIstio {
  LatestVersion : string;
  LocalVersion : string;
  ConfigMap : File
}.

(** [iVersion.Data.Version = v] *)
Definition set_Data_Version (d : IstioVersionCm) (v : string) : IstioVersionCm :=
  {| APIVersion := APIVersion d; Kind := Kind d; CmMetadata := CmMetadata d;
     CmData := {| DataVersion := v |} |}.

(** [m.ConfigMap = m.ConfigMap.With(...)] with a callback that sets the
    file's content. *)
Definition set_ConfigMap_contents (m : Istio) (nc : string) : Istio :=
  {| LatestVersion := LatestVersion m; LocalVersion := LocalVersion m;
     ConfigMap := {| Contents := Ok nc |} |}.

(** [IsNewerVersion]. Go returns [(false, err)] on the two error paths;
    [Err err] stands for that pair. *)
Definition IsNewerVersion (m : Istio) : Result bool :=
  match NewVersion (LatestVersion m) with
  | Err err => Err ("failed to parse latest version: " +:+ err)
  | Ok latestVersion =>
  match NewVersion (LocalVersion m) with
  | Err err => Err ("failed to parse local version: " +:+ err)
  | Ok localVersion =>
  let result := Compare latestVersion localVersion in
  if (result >? 0)%Z then Ok true
  else Ok false
  end end.

Section ReturnUpdatedCm.

(** [yaml.Unmarshal] into a fresh [IstioVersionCm] and [yaml.Marshal] of
    one, from gopkg.in/yaml.v2. *)
Variable Unmarshal : string -> Result IstioVersionCm.
Variable Marshal : IstioVersionCm -> Result string.

(** [ReturnUpdatedCm]. The second component is the receiver as the call
    leaves it. *)
Definition ReturnUpdatedCm (m : Istio) : Result string * Istio :=
  match IsNewerVersion m with
  | Err err => (Err ("failed to check if newer version: " +:+ err), m)
  | Ok isNewerVersion =>
  if negb isNewerVersion then
    (Ok ("No update needed. Latest version is " +:+ LatestVersion m), m)
  else
  match Contents (ConfigMap m) with
  | Err err => (Err ("failed to read file contents: " +:+ err), m)
  | Ok content =>
  match Unmarshal content with
  | Err err => (Err ("failed to unmarshal yaml: " +:+ err), m)
  | Ok iVersion =>
  let iVersion := set_Data_Version iVersion (LatestVersion m) in
  match Marshal iVersion with
  | Err err => (Err ("failed to marshal yaml: " +:+ err), m)
  | Ok newContent =>
  (Ok newContent, set_ConfigMap_contents m newContent)
  end end end end.

End ReturnUpdatedCm.

End Istio.
Export Istio.


(** ** A line codec for the ConfigMap

    A small codec with the round-trip property, to put in the place of the
    yaml library where a statement is tried on an example: it writes the
    document in the block layout of the ConfigMap file and takes only
    scalars without a line break. *)

Module LineCodec.

Definition nl : string := String "010" EmptyString.

Definition single_line (s : string) : bool :=
  all_chars (fun c => negb (bool_decide (c = "010"%char))) s.

Fixpoint strip_prefix (prefix s : string) : option string :=
  match prefix with
  | EmptyString => Some s
  | String c prefix' =>
      match s with
      | String c' s' => if bool_decide (c' = c) then strip_prefix prefix' s' else None
      | EmptyString => None
      end
  end.

(** The text up to the first line break, and the text after it. *)
Fixpoint read_line (s : string) : option (string * string) :=
  match s with
  | EmptyString => None
  | String c s' =>
      if bool_decide (c = "010"%char) then Some (EmptyString, s')
      else
        match read_line s' with
        | Some (line, rest) => Some (String c line, rest)
        | None => None
        end
  end.

Definition field (key s : string) : option (string * string) :=
  match strip_prefix key s with
  | Some s' => read_line s'
  | None => None
  end.

Definition render (d : IstioVersionCm) : string :=
  "apiVersion: " +:+ APIVersion d +:+ nl +:+
  "kind: " +:+ Kind d +:+ nl +:+
  "metadata:" +:+ nl +:+
  "  name: " +:+ MetaName (CmMetadata d) +:+ nl +:+
  "  namespace: " +:+ Namespace (CmMetadata d) +:+ nl +:+
  "  annotations:" +:+ nl +:+
  "    kustomize.toolkit.fluxcd.io/ssa: "
    +:+ KustomizeToolkitFluxcdIoSsa (MetaAnnotations (CmMetadata d)) +:+ nl +:+
  "data:" +:+ nl +:+
  "  version: " +:+ DataVersion (CmData d) +:+ nl.

Definition Marshal (d : IstioVersionCm) : Result string :=
  if single_line (APIVersion d) && single_line (Kind d)
     && single_line (MetaName (CmMetadata d)) && single_line (Namespace (CmMetadata d))
     && single_line (KustomizeToolkitFluxcdIoSsa (MetaAnnotations (CmMetadata d)))
     && single_line (DataVersion (CmData d))
  then Ok (render d)
  else Err "line codec: a scalar spans several lines".

Definition parse (s : string) : option IstioVersionCm :=
  '(api, s) ← field "apiVersion: " s;
  '(kind, s) ← field "kind: " s;
  s ← strip_prefix ("metadata:" +:+ nl) s;
  '(name, s) ← field "  name: " s;
  '(namespace, s) ← field "  namespace: " s;
  s ← strip_prefix ("  annotations:" +:+ nl) s;
  '(ssa, s) ← field "    kustomize.toolkit.fluxcd.io/ssa: " s;
  s ← strip_prefix ("data:" +:+ nl) s;
  '(version, s) ← field "  version: " s;
  if bool_decide (s = EmptyString) then
    Some {| APIVersion := api; Kind := kind;
            CmMetadata := {| MetaName := name; Namespace := namespace;
                             MetaAnnotations := {| KustomizeToolkitFluxcdIoSsa := ssa |} |};
            CmData := {| DataVersion := version |} |}
  else None.

Definition Unmarshal (s : string) : Result IstioVersionCm :=
  match parse s with
  | Some d => Ok d
  | None => Err "line codec: unexpected input"
  end.

End LineCodec.

(** A ConfigMap at version 1.20.0, and the module on it when 1.21.0 and
    when 1.20.0 is the latest release. *)
Module SampleIstio.

Definition doc : IstioVersionCm :=
  {| APIVersion := "v1"; Kind := "ConfigMap";
     CmMetadata := {| MetaName := "istio-version"; Namespace := "flux-system";
                      MetaAnnotations := {| KustomizeToolkitFluxcdIoSsa := "Merge" |} |};
     CmData := {| DataVersion := "1.20.0" |} |}.

Definition behind : Istio :=
  {| LatestVersion := "1.21.0"; LocalVersion := "1.20.0";
     ConfigMap := {| Contents := Ok (LineCodec.render doc) |} |}.


End SampleIstio.

(** Two prereleases whose numeric identifier is beyond 64 bits, and the
    module on a ConfigMap at the one when the other is the latest release. *)
Module SampleLong.




End SampleLong.

(** ** istio/dagger/main.go: the constructor *)

Module IstioSetup.

Record Release : Type := mkRelease {
  TagName : string;
  ReleaseName : string
}.

(** [m.LocalVersion = v] and [m.LatestVersion = v] *)
Definition set_LocalVersion (m : Istio) (v : string) : Istio :=
  {| LatestVersion := LatestVersion m; LocalVersion := v; ConfigMap := ConfigMap m |}.
Definition set_LatestVersion (m : Istio) (v : string) : Istio :=
  {| LatestVersion := v; LocalVersion := LocalVersion m; ConfigMap := ConfigMap m |}.

Section Services.

(** [yaml.Unmarshal] into a fresh [IstioVersionCm]. *)
Variable Unmarshal : string -> Result IstioVersionCm.

(** [http.Get]: an error, or a response; of a response the module uses
    only what [io.ReadAll] makes of its body, the bytes or an error. The
    status code is never read. *)
Variable http_Get : string -> Result (Result string).

(** [json.Unmarshal] into a zero [Release]. *)
Variable json_Unmarshal : string -> Result Release.

(** [setLatestVersion]: the error, [None] for [nil], and the receiver as
    the call leaves it. *)
Definition setLatestVersion (m : Istio) : option error * Istio :=
  let owner := "istio" in
  let repo := "istio" in
  let url := "https://api.github.com/repos/" +:+ owner +:+ "/" +:+ repo
             +:+ "/releases/latest" in
  match http_Get url with
  | Err err => (Some ("failed to get latest version: " +:+ err), m)
  | Ok resp =>
  match resp with
  | Err err => (Some ("failed to read response body: " +:+ err), m)
  | Ok body =>
  match json_Unmarshal body with
  | Err err => (Some ("failed to unmarshal json: " +:+ err), m)
  | Ok release => (None, set_LatestVersion m (TagName release))
  end end end.

(** [setLocalVersion] *)
Definition setLocalVersion (m : Istio) : option error * Istio :=
  match Contents (ConfigMap m) with
  | Err err => (Some ("failed to read file contents: " +:+ err), m)
  | Ok content =>
  match Unmarshal content with
  | Err err => (Some ("failed to unmarshal yaml: " +:+ err), m)
  | Ok iVersion => (None, set_LocalVersion m (DataVersion (CmData iVersion)))
  end end.

(** [New]: [panic(err)] prints the error's text. *)
Definition New (ConfigMap : File) : Outcome Istio :=
  let i := {| LatestVersion := EmptyString; LocalVersion := EmptyString;
              ConfigMap := ConfigMap |} in
  match setLocalVersion i with
  | (Some err, _) => Panics err
  | (None, i) =>
  match setLatestVersion i with
  | (Some err, _) => Panics err
  | (None, i) => Returns i
  end end.

End Services.

End IstioSetup.

(** ** github/dagger/main.go: the Istio module that decides on a pull request *)

Module IstioPR.

Record Istio : Type := mkIstio {
  LatestVersion : string;
  LocalVersion : string;
  ResourceDir : Directory;
  CmPath : string
}.

(** [IsNewerVersion]; [Err err] stands for the pair [(false, err)]. *)
Definition IsNewerVersion (m : Istio) : Result bool :=
  match NewVersion (LatestVersion m) with
  | Err err => Err ("failed to parse latest version: " +:+ err)
  | Ok latestVersion =>
  match NewVersion (LocalVersion m) with
  | Err err => Err ("failed to parse local version: " +:+ err)
  | Ok localVersion =>
  let result := Compare latestVersion localVersion in
  if (result >? 0)%Z then Ok true
  else Ok false
  end end.


End IstioPR.

(** A release service for the examples: the one URL the module asks for
    answers with [body], and a decoder that reads the body as the tag. *)
Module SampleRelease.

Definition get (body : string) : string -> Result (Result string) :=
  fun url =>
    if bool_decide (url = "https://api.github.com/repos/istio/istio/releases/latest")
    then Ok (Ok body) else Err "no such host".

Definition decode (body : string) : Result IstioSetup.Release :=
  Ok {| IstioSetup.TagName := body; IstioSetup.ReleaseName := "Istio " +:+ body |}.

Definition cm : File := {| Contents := Ok (LineCodec.render SampleIstio.doc) |}.

End SampleRelease.

(** ** Go's strings package and slice indexing *)

Module gostrings.

(** [strings.Split(s, sep)] for a separator of one character. *)
Fixpoint Split (s : string) (sep : ascii) : list string :=
  match s with
  | EmptyString => [EmptyString]
  | String c s' =>
      match Split s' sep with
      | part :: parts =>
          if bool_decide (c = sep) then EmptyString :: part :: parts
          else String c part :: parts
      | [] => []
      end
  end.

(** [strings.TrimSuffix]: the recursion stops at the tail that is the
    suffix, which only the tail of the suffix's length can be. *)
Fixpoint TrimSuffix (s suffix : string) : string :=
  if bool_decide (s = suffix) then EmptyString
  else
    match s with
    | EmptyString => EmptyString
    | String c s' => String c (TrimSuffix s' suffix)
    end.

(** [strings.HasPrefix] *)
Definition HasPrefix (s prefix : string) : bool := String.prefix prefix s.

(** [strings.Join] *)
Fixpoint Join (elems : list string) (sep : string) : string :=
  match elems with
  | [] => EmptyString
  | [e] => e
  | e :: rest => e +:+ sep +:+ Join rest sep
  end.

(** [parts[i]]: a panic when [i] is out of range. *)
Definition index (parts : list string) (i : Z) : Outcome string :=
  if (i <? 0)%Z then
    Panics ("runtime error: index out of range [" +:+ pretty.pretty i +:+ "]")
  else
    match parts !! Z.to_nat i with
    | Some part => Returns part
    | None =>
        Panics ("runtime error: index out of range [" +:+ pretty.pretty i
                +:+ "] with length " +:+ pretty.pretty (length parts))
    end.

End gostrings.

(** ** gh/dagger/main.go, the module that runs the git and gh binaries *)

Module GhCli.

Record Gh : Type := mkGh {
  RepoPath : Directory;
  BaseBranch : string;
  Token : Secret
}.

Definition extractRepoOwnerAndNameSSH (url : string) : Outcome (string * string) :=
  (* Remove the .git extension *)
  let url := gostrings.TrimSuffix url ".git" in
  (* Split the URL by the colon *)
  let parts := gostrings.Split url ":" in
  (* Split the second part by the slash *)
  match gostrings.index parts 1 with
  | Panics msg => Panics msg
  | Returns second =>
  let parts := gostrings.Split second "/" in
  (* Return the owner and name *)
  match gostrings.index parts 0 with
  | Panics msg => Panics msg
  | Returns owner =>
  match gostrings.index parts 1 with
  | Panics msg => Panics msg
  | Returns name => Returns (owner, name)
  end end end.

Definition extractRepoOwnerAndNameHTTPS (url : string) : Outcome (string * string) :=
  (* Remove the .git extension *)
  let url := gostrings.TrimSuffix url ".git" in
  (* Split the URL by the slash *)
  let parts := gostrings.Split url "/" in
  (* Return the owner and name *)
  match gostrings.index parts (Z.of_nat (length parts) - 2) with
  | Panics msg => Panics msg
  | Returns owner =>
  match gostrings.index parts (Z.of_nat (length parts) - 1) with
  | Panics msg => Panics msg
  | Returns name => Returns (owner, name)
  end end.

(** A container pipeline is the list of the builder calls made on
    [dag.Container()], in call order. *)
Record ContainerWithExecOpts : Type := mkExecOpts { SkipEntrypoint : bool }.

Inductive ContainerOp : Type :=
| From (address : string)
| WithDirectory (path : string) (directory : Directory)
| WithSecretVariable (name : string) (secret : Secret)
| WithWorkdir (path : string)
| WithExec (args : list string) (opts : ContainerWithExecOpts).

Definition Container : Type := list ContainerOp.

Section Engine.

(** gopkg.in/ini.v1: the sections of a loaded file, and what the module
    asks of a section. *)
Variable Sec : Type.
Variable SecName : Sec -> string.
Variable HasKey : Sec -> string -> bool.
Variable KeyString : Sec -> string -> string.

(** [dir.File(path).Export(ctx, dest)]: the error, if any. *)
Variable File_Export : Directory -> string -> string -> option error.

(** [ini.Load(dest)] on the copy an export of [dir] left at [dest]. *)
Variable ini_Load : Directory -> string -> Result (list Sec).

(** [Container.Sync] and [Container.Stdout] of the Dagger engine. *)
Variable Sync : Container -> Result Container.
Variable Stdout : Container -> Result string.

(** The loop over [cfg.Sections()]: every section with a [url] key that is
    not the default section overwrites [url]. *)
Definition last_url (sections : list Sec) : string :=
  fold_left
    (fun url section =>
       if HasKey section "url" && negb (bool_decide (SecName section = "DEFAULT"))
       then KeyString section "url" else url)
    sections EmptyString.

Definition extractRepoOwnerAndName (m : Gh) : Outcome (Result (string * string)) :=
  match File_Export (RepoPath m) ".git/config" "/workspace/git-config" with
  | Some err => Returns (Err ("failed to export git config: " +:+ err))
  | None =>
  (* Load the .git/config file *)
  match ini_Load (RepoPath m) "/workspace/git-config" with
  | Err err => Returns (Err ("failed to load git config: " +:+ err))
  | Ok cfg =>
  let url := last_url cfg in
  (* Check if the URL is an ssh or https URL *)
  match (if gostrings.HasPrefix url "git@" then extractRepoOwnerAndNameSSH url
         else extractRepoOwnerAndNameHTTPS url) with
  | Panics msg => Panics msg
  | Returns (owner, repo) => Returns (Ok (owner, repo))
  end end end.

Definition sh (command : list string) : ContainerOp :=
  WithExec ["sh"; "-c"; gostrings.Join command " "] {| SkipEntrypoint := true |}.

(** The pipeline [RunGit] hands to [Sync]. *)
Definition git_pipeline (m : Gh) (tk owner repo cmd version userEmail userName : string)
  : Container :=
  [ From ("alpine/git:" +:+ version);
    WithDirectory "/workspace" (RepoPath m);
    WithSecretVariable "GITHUB_TOKEN" (Token m);
    WithWorkdir "/workspace";
    sh ["git"; "config --global user.email '" +:+ userEmail +:+ "'"];
    sh ["git"; "config --global user.name '" +:+ userName +:+ "'"];
    sh ["git"; "remote set-url origin https://" +:+ tk +:+ ":x-oauth-basic@github.com/"
                 +:+ owner +:+ "/" +:+ repo +:+ ".git"];
    sh ["git"; cmd] ].

(** [RunGit]. [Err err] stands for the pair of an empty container and
    [err]. *)
Definition RunGit (m : Gh) (cmd version userEmail userName : string)
  : Outcome (Result Container) :=
  match Plaintext (Token m) with
  | Err err => Returns (Err ("failed to get auth token: " +:+ err))
  | Ok tk =>
  match extractRepoOwnerAndName m with
  | Panics msg => Panics msg
  | Returns (Err err) =>
      Returns (Err ("failed to extract repo owner and name: " +:+ err))
  | Returns (Ok (owner, repo)) =>
  match Sync (git_pipeline m tk owner repo cmd version userEmail userName) with
  | Err err => Returns (Err ("failed to run git command: " +:+ err))
  | Ok c => Returns (Ok c)
  end end end.

(** [RunGh] *)
Definition RunGh (m : Gh) (repoPath : Directory) (cmd version : string) : Result string :=
  match Sync [ From ("maniator/gh:v" +:+ version);
               WithDirectory "/workspace" repoPath;
               WithSecretVariable "GITHUB_TOKEN" (Token m);
               WithWorkdir "/workspace";
               sh ["gh"; cmd] ] with
  | Err err => Err ("failed to run git command: " +:+ err)
  | Ok c => Stdout c
  end.

End Engine.

End GhCli.

(** A git config with one remote, and an engine that runs every pipeline. *)
Module SampleCli.

Record Sec : Type := mkSec { name : string; keys : list (string * string) }.

Definition HasKey (section : Sec) (key : string) : bool :=
  bool_decide (is_Some (list_to_map (M := gmap string string) (keys section) !! key)).

Definition KeyString (section : Sec) (key : string) : string :=
  default EmptyString (list_to_map (M := gmap string string) (keys section) !! key).

Definition origin (url : string) : list Sec :=
  [ {| name := "DEFAULT"; keys := [] |};
    {| name := "core"; keys := [("bare", "false")] |};
    {| name := "remote " +:+ String "034" ("origin" +:+ String "034" EmptyString);
       keys := [("url", url); ("fetch", "+refs/heads/*:refs/remotes/origin/*")] |};
    {| name := "branch " +:+ String "034" ("master" +:+ String "034" EmptyString);
       keys := [("remote", "origin"); ("merge", "refs/heads/master")] |} ].

Definition no_remote : list Sec :=
  [ {| name := "DEFAULT"; keys := [] |};
    {| name := "core"; keys := [("bare", "false")] |} ].

Definition gh : GhCli.Gh :=
  {| GhCli.RepoPath := {| dir_export_error := None; dir_repo := None |};
     GhCli.BaseBranch := "master";
     GhCli.Token := {| Plaintext := Ok "TOKEN" |} |}.

Definition exports : Directory -> string -> string -> option error := fun _ _ _ => None.
Definition loads (cfg : list Sec) : Directory -> string -> Result (list Sec) :=
  fun _ _ => Ok cfg.
Definition runs : GhCli.Container -> Result GhCli.Container := fun c => Ok c.

End SampleCli.

(** More sample repositories: a bare clone, and a checkout that holds an
    untracked file next to the tracked one. *)
Module SampleBranches.


Definition with_notes_fs : gmap string string :=
  {[ "README.md" := "hello"; "NOTES.md" := "to do" ]}.
Definition with_notes : Repository :=
  {| Storer := Sample.storage0; wt := Some with_notes_fs |}.

End SampleBranches.

(** ** Notions the statements below are about *)

(** The reference [n] resolves, and to the hash [h]. *)
Definition points_to (s : Storage) (n : ReferenceName) (h : Hash) : Prop :=
  exists ref, ResolveReference s n = Ok ref /\ RefHash ref = h.


(** The module's [RepoPath] exports, and the export opens as [r]. *)
Definition opens (m : Gh) (r : Repository) : Prop :=
  exists local,
    Export (RepoPath m) ("./" +:+ Repo m) = Ok local /\ PlainOpen local = Ok r.


(** What the reference store holds under [n] in the repository a call
    left, if it left one. *)
Definition reference_after (out : Result string * option Repository) (n : ReferenceName)
  : option RefContent :=
  match out.2 with
  | Some r => References (Storer r) !! n
  | None => None
  end.

(** The options [CommitChangesInNewBranch] commits with. *)
Definition cOpts : CommitOptions :=
  {| All := true;
     CommitAuthor := {| SigName := "Dagger"; SigEmail := "mihai.g@adoreme.com" |} |}.

(** The worktree [CommitChangesInNewBranch] is about to commit: the branch
    reference written at the hash [h] HEAD was read at, everything staged. *)
Definition staged (r : Repository) (fs : gmap string string) (branchName : string) (h : Hash)
  : Worktree :=
  let s := with_References (Storer r)
             (<[NewBranchReferenceName branchName := HashContent h]> (References (Storer r))) in
  (Worktree_Add {| w_r := with_Storer r s; Filesystem := fs |}).2.

(** The worktree [fs] of [r] has no change relative to HEAD: HEAD resolves
    to the commit [parent], and the index and the worktree are that
    commit's tree. *)
Definition unchanged (r : Repository) (fs : gmap string string) (h : Hash) (parent : Commit)
  : Prop :=
  wt r = Some fs /\
  Index (Storer r) = fs /\
  points_to (Storer r) HEAD h /\
  Objects (Storer r) !! h = Some (CommitObject parent) /\
  TreeHash parent = hash_object (TreeObject fs).


(** A GitHub that cannot be reached: the transport fails, and go-github
    hands back no response along with the error. *)
Definition unreachable : Service :=
  fun _ _ _ _ => (None, Some "dial tcp: lookup api.github.com: no such host").

(** *** Precedence of versions, as Semantic Versioning words it

    Identifiers that consist of digits only are numeric and compare as
    numbers, other identifiers compare as strings in ASCII order, a
    numeric identifier is lower than any other, and when one list of
    identifiers is a prefix of the other the longer one is higher. *)






(** [a] and [b] are the same version up to build metadata. *)
Definition semver_equal (a b : Version) : Prop :=
  major a = major b /\ minor a = minor b /\ patch a = patch b /\ pre a = pre b.



(** *** The shape of a version string

    What the library's pattern takes for a version:
    [v?MAJOR(.MINOR)?(.PATCH)?(-PRERELEASE)?(+METADATA)?], the three
    numbers strings of digits, prerelease and metadata dot-separated
    identifiers over letters, digits and the hyphen. A string of any other
    shape is malformed. *)

Definition digits (s : string) : Prop :=
  s ≠ EmptyString /\ all_chars is_digit s = true.

(** A part that may be absent: empty, or [mark] and a body of the kind [P]. *)
Definition optional_part (mark : ascii) (P : string -> Prop) (s : string) : Prop :=
  s = EmptyString \/ exists body, s = String mark body /\ P body.

Definition version_shaped (v : string) : Prop :=
  exists lead ma mi pa pr me,
    v = lead +:+ ma +:+ mi +:+ pa +:+ pr +:+ me /\
    (lead = EmptyString \/ lead = "v") /\
    digits ma /\
    optional_part "." digits mi /\
    optional_part "." digits pa /\
    optional_part "-" (fun p => valid_identifiers p = true) pr /\
    optional_part "+" (fun q => valid_identifiers q = true) me.

Definition malformed (v : string) : Prop := ~ version_shaped v.


(** The character [c] does not occur in [s]. *)
Definition lacks (c : ascii) (s : string) : Prop :=
  all_chars (fun x => negb (bool_decide (x = c))) s = true.

(** The reference a commit moves: the branch HEAD names, or HEAD itself
    when it holds a hash. *)
Definition moved_by_commit (r : Repository) : ReferenceName :=
  match References (Storer r) !! HEAD with
  | Some (SymbolicContent target) => target
  | _ => HEAD
  end.

(** The index tracks a file that the worktree has changed or lost. *)
Definition unstaged_change (r : Repository) (fs : gmap string string) : Prop :=
  exists path content,
    Index (Storer r) !! path = Some content /\ fs !! path ≠ Some content.

(** ** The reference store *)

(** The proofs below never count the hops of a resolution. *)
#[global] Opaque MaxResolveRecursion.

Section References.

Implicit Types (s : Storage) (r : Repository) (n k : ReferenceName) (h : Hash).

Lemma NewBranchReferenceName_not_HEAD name : NewBranchReferenceName name ≠ HEAD.
Proof. discriminate. Qed.

Lemma Storer_Reference_set s k c n :
  Storer_Reference (with_References s (<[k := c]> (References s))) n =
  if decide (k = n) then Ok (reference_at n c) else Storer_Reference s n.
Proof.
  unfold Storer_Reference; cbn. rewrite lookup_insert.
  by destruct (decide (k = n)).
Qed.

(** Writing the hash a chain already ends in cannot change where any chain
    through the written name ends. *)
Lemma resolveReference_set_hash s k h budget : forall ref0 ref,
  resolveReference s ref0 budget = Ok ref -> RefHash ref = h ->
  exists ref',
    resolveReference (with_References s (<[k := HashContent h]> (References s)))
                     ref0 budget = Ok ref' /\ RefHash ref' = h.
Proof.
  induction budget as [|budget IH]; intros [n0 h0|n0 target] ref Hres Hh; cbn in *;
    try (simplify_eq; by eauto); try discriminate.
  rewrite Storer_Reference_set. destruct (decide (k = target)) as [->|Hne].
  - destruct budget; cbn; eauto.
  - destruct (Storer_Reference s target) as [t|e]; [|discriminate]. eauto.
Qed.

Lemma points_to_set_hash s k h n :
  points_to s n h -> points_to (with_References s (<[k := HashContent h]> (References s))) n h.
Proof.
  intros (ref & Hres & Hh). unfold points_to, ResolveReference in *.
  rewrite Storer_Reference_set. destruct (decide (k = n)) as [->|Hne].
  - cbn. eauto.
  - destruct (Storer_Reference s n) as [r0|e]; [|discriminate].
    eapply resolveReference_set_hash; eauto.
Qed.

Lemma points_to_set_self s k h :
  points_to (with_References s (<[k := HashContent h]> (References s))) k h.
Proof.
  unfold points_to, ResolveReference. rewrite Storer_Reference_set, decide_True by done.
  cbn. eauto.
Qed.


Lemma resolveReference_with_Index s idx budget :
  forall ref0, resolveReference (with_Index s idx) ref0 budget = resolveReference s ref0 budget.
Proof.
  induction budget as [|budget IH]; intros [n0 h0|n0 target]; cbn; try done.
  unfold Storer_Reference; cbn. destruct (References s !! target); [apply IH|done].
Qed.

(** Resolution reads the references only. *)
Lemma points_to_with_Index s idx n h :
  points_to s n h -> points_to (with_Index s idx) n h.
Proof.
  intros (ref & Hres & Hh). exists ref. split; [|done].
  unfold ResolveReference in *.
  change (Storer_Reference (with_Index s idx) n) with (Storer_Reference s n).
  destruct (Storer_Reference s n); [|done]. by rewrite resolveReference_with_Index.
Qed.

Lemma points_to_via_symbolic s k target h :
  References s !! k = Some (SymbolicContent target) ->
  References s !! target = Some (HashContent h) ->
  points_to s k h.
Proof.
  intros Hk Ht. unfold points_to, ResolveReference, Storer_Reference.
  rewrite Hk. cbn. unfold Storer_Reference. rewrite Ht. cbn. eauto.
Qed.




End References.

(** ** Checkout *)

Section Checkout.

Implicit Types (r : Repository) (w : Worktree) (h : Hash).


Lemma setHEADCommit_post r h r2 :
  setHEADCommit r h = Ok r2 ->
  exists k,
    Storer r2 = with_References (Storer r) (<[k := HashContent h]> (References (Storer r))) /\
    wt r2 = wt r.
Proof.
  unfold setHEADCommit. intros H.
  destruct (Storer_Reference (Storer r) HEAD) as [[n h'|n target]|e]; cbn in H;
    [by simplify_eq; eauto| |discriminate].
  destruct (Storer_Reference (Storer r) target) as [branch|e]; cbn in H; [|discriminate].
  simplify_eq. eauto.
Qed.



End Checkout.

(** ** CreateLocalBranch *)

Section CreateLocalBranch.

Implicit Types (m : Gh) (r : Repository) (h : Hash).


End CreateLocalBranch.





(** C5. When the checkout of the base branch fails, with whatever error,
    and HEAD resolves afterwards, [CreateLocalBranch] reports success: the
    error of that step reaches no caller. *)
Theorem CreateLocalBranch_drops_checkout_error m branchName r fs b e w1 headRef :
  opens m r ->
  Repository_Reference r (NewBranchReferenceName (BaseBranch m)) true = Ok b ->
  wt r = Some fs ->
  Checkout {| w_r := r; Filesystem := fs |}
           {| Branch := NewBranchReferenceName (BaseBranch m) |} = (Some e, w1) ->
  Head (w_r w1) = Ok headRef ->
  (CreateLocalBranch m branchName).1 = Ok ("created local branch " +:+ branchName).
Proof.
  intros (local & HE & HO) Hb Hwt Hco HHead.
  unfold CreateLocalBranch, Repository_Worktree. by rewrite HE, HO, Hb, Hwt, Hco, HHead.
Qed.

Lemma pair_from_fst {A B} (p : A * B) (a : A) : p.1 = a -> p = (a, p.2).
Proof. destruct p. by intros <-. Qed.

(** The checkout fails on a worktree with an unstaged edit. *)
Lemma CreateLocalBranch_drops_checkout_error_witness :
  (Checkout {| w_r := Sample.edited; Filesystem := Sample.edited_fs |}
            {| Branch := NewBranchReferenceName "master" |}).1
    = Some ErrUnstagedChanges /\
  (CreateLocalBranch (Sample.gh_on Sample.edited) "feature").1
    = Ok "created local branch feature".
Proof.
  split; [vm_compute; reflexivity|].
  apply (CreateLocalBranch_drops_checkout_error
           (Sample.gh_on Sample.edited) "feature" Sample.edited
           Sample.edited_fs
           (HashReference "refs/heads/master" Sample.h0)
           ErrUnstagedChanges
           (Checkout {| w_r := Sample.edited; Filesystem := Sample.edited_fs |}
                     {| Branch := NewBranchReferenceName "master" |}).2
           (HashReference "refs/heads/master" Sample.h0)).
  - eexists. split; reflexivity.
  - vm_compute. reflexivity.
  - reflexivity.
  - apply pair_from_fst. vm_compute. reflexivity.
  - vm_compute. reflexivity.
Defined.

(** ** CommitChangesInNewBranch *)

Section Commit.

Implicit Types (m : Gh) (r : Repository) (w : Worktree) (h : Hash) (rule : EmptyCommitRule).

(** A commit that goes through stores a commit object on top of the hash
    HEAD resolved to, built from the index, and moves HEAD (or the branch
    HEAD names) to it. *)
Lemma Worktree_Commit_ok rule w msg opts h hnew w' :
  points_to (Storer (w_r w)) HEAD h ->
  Worktree_Commit rule w msg opts = (Ok hnew, w') ->
  exists c,
    hnew = hash_object (CommitObject c) /\
    Objects (Storer (w_r w')) !! hnew = Some (CommitObject c) /\
    ParentHashes c = [h] /\
    Message c = msg /\
    Author c = CommitAuthor opts /\
    Committer c = CommitAuthor opts /\
    TreeHash c = hash_object (TreeObject (Index (Storer (w_r w')))) /\
    points_to (Storer (w_r w')) HEAD hnew.
Proof.
  intros (ref & Hres & Hh) Hrun. unfold Worktree_Commit, Validate_Parents, Head in Hrun.
  rewrite Hres, Hh in Hrun.
  set (w1 := if All opts then autoAddModifiedAndDeleted w else w) in Hrun.
  destruct (refuse_empty rule (w_r w1) _ [h]); [by simplify_eq|].
  set (c := {| Author := CommitAuthor opts; Committer := CommitAuthor opts; Message := msg;
               TreeHash := hash_object (TreeObject (Index (Storer (w_r w1))));
               ParentHashes := [h] |}) in Hrun.
  set (r2 := store_object _ (CommitObject c)) in Hrun.
  unfold updateHEAD, Storer_Reference in Hrun.
  destruct (References (Storer r2) !! HEAD) as [[h'|target]|] eqn:HHEAD; cbn in Hrun;
    simplify_eq; exists c;
    (split_and!; [done|by apply lookup_insert_eq|done..|]).
  - exact (points_to_set_self (Storer r2) HEAD _).
  - destruct (decide (target = HEAD)) as [->|Hne].
    + exact (points_to_set_self (Storer r2) HEAD _).
    + eapply (points_to_via_symbolic _ HEAD target); cbn [w_r with_repo with_Storer Storer
        with_References References].
      * rewrite lookup_insert_ne by done. exact HHEAD.
      * by rewrite lookup_insert_eq.
Qed.

(** C3. Whenever [CommitChangesInNewBranch] succeeds, the commit it stored,
    which HEAD resolves to afterwards, has exactly one parent: the hash HEAD
    was read at when the function started, which is also the hash HEAD
    resolves to in the staged worktree right before the commit is made. The
    commit carries the title as its message and the fixed author. *)
Theorem CommitChangesInNewBranch_parent_is_HEAD rule m commitTitle branchName msg r' :
  CommitChangesInNewBranch rule m commitTitle branchName = (Ok msg, Some r') ->
  exists r fs headRef hnew c,
    opens m r /\ wt r = Some fs /\
    Head r = Ok headRef /\
    points_to (Storer (w_r (staged r fs branchName (RefHash headRef)))) HEAD (RefHash headRef) /\
    Worktree_Commit rule (staged r fs branchName (RefHash headRef)) commitTitle cOpts
      = (Ok hnew, with_repo (staged r fs branchName (RefHash headRef)) r') /\
    points_to (Storer r') HEAD hnew /\
    Objects (Storer r') !! hnew = Some (CommitObject c) /\
    ParentHashes c = [RefHash headRef] /\
    Message c = commitTitle /\
    Author c = CommitAuthor cOpts.
Proof.
  unfold CommitChangesInNewBranch. intros Hrun.
  destruct (Export _ _) as [local|e] eqn:HE; [|by simplify_eq].
  destruct (PlainOpen local) as [r|e] eqn:HO; [|by simplify_eq].
  destruct (Head r) as [headRef|e] eqn:HHead; [|by simplify_eq]. cbn in Hrun.
  unfold Repository_Worktree in Hrun. cbn [wt with_Storer] in Hrun.
  destruct (wt r) as [fs|] eqn:Hwt; [|by simplify_eq].
  unfold Worktree_Add in Hrun. fold cOpts in Hrun.
  change (with_repo _ _) with (staged r fs branchName (RefHash headRef)) in Hrun.
  assert (points_to (Storer (w_r (staged r fs branchName (RefHash headRef)))) HEAD
                    (RefHash headRef)) as Hpre.
  { apply points_to_with_Index, points_to_set_hash. by exists headRef. }
  destruct (Worktree_Commit rule _ commitTitle cOpts) as [[hnew|e] w'] eqn:HC;
    [|by simplify_eq].
  destruct (Worktree_Commit_ok _ _ _ _ _ _ _ Hpre HC) as (c & _ & Hobj & Hpar & Hmsg & Hau & _ & _ & HH).
  assert (w_r w' = r') as <- by by simplify_eq.
  assert (w' = with_repo (staged r fs branchName (RefHash headRef)) (w_r w')) as Hw'.
  { clear -HC. unfold Worktree_Commit in HC.
    repeat match type of HC with
           | context [match ?x with _ => _ end] => destruct x
           | context [if ?x then _ else _] => destruct x
           end; by simplify_eq. }
  exists r, fs, headRef, hnew, c.
  split_and!; try done; [by exists local | by rewrite <- Hw'].
Qed.

Lemma run_succeeded (out : Result string * option Repository) msg d :
  out.1 = Ok msg -> bool_decide (is_Some out.2) = true ->
  out = (Ok msg, Some (default d out.2)).
Proof.
  destruct out as [res [r|]]; cbn; intros -> Hsome; [done|discriminate].
Qed.

Lemma CommitChangesInNewBranch_parent_is_HEAD_witness :
  let r' := default Sample.edited
              (CommitChangesInNewBranch RefuseUnchangedTree (Sample.gh_on Sample.edited)
                                        "Update file" "feature").2 in
  exists r fs headRef hnew c,
    opens (Sample.gh_on Sample.edited) r /\ wt r = Some fs /\
    Head r = Ok headRef /\
    points_to (Storer (w_r (staged r fs "feature" (RefHash headRef)))) HEAD (RefHash headRef) /\
    Worktree_Commit RefuseUnchangedTree (staged r fs "feature" (RefHash headRef))
                    "Update file" cOpts
      = (Ok hnew, with_repo (staged r fs "feature" (RefHash headRef)) r') /\
    points_to (Storer r') HEAD hnew /\
    Objects (Storer r') !! hnew = Some (CommitObject c) /\
    ParentHashes c = [RefHash headRef] /\
    Message c = "Update file" /\
    Author c = CommitAuthor cOpts.
Proof.
  cbv zeta.
  eapply (CommitChangesInNewBranch_parent_is_HEAD RefuseUnchangedTree
            (Sample.gh_on Sample.edited) "Update file" "feature"
            "successfully committed changes").
  apply run_succeeded; vm_compute; reflexivity.
Defined.

(** C2. On a checkout of [master] with an edited file, a successful
    [CommitChangesInNewBranch] for the branch [feature] leaves
    [refs/heads/feature] at the hash HEAD had before the commit, while
    [refs/heads/master], the branch HEAD names before and after, no longer
    holds that hash: the commit went to [master]. *)
Theorem CommitChangesInNewBranch_commits_on_HEAD_branch rule :
  let out := CommitChangesInNewBranch rule (Sample.gh_on Sample.edited)
                                      "Update file" "feature" in
  out.1 = Ok "successfully committed changes" /\
  References (Storer Sample.edited) !! HEAD = Some (SymbolicContent "refs/heads/master") /\
  References (Storer Sample.edited) !! "refs/heads/master" = Some (HashContent Sample.h0) /\
  reference_after out "refs/heads/feature" = Some (HashContent Sample.h0) /\
  reference_after out HEAD = Some (SymbolicContent "refs/heads/master") /\
  is_Some (reference_after out "refs/heads/master") /\
  reference_after out "refs/heads/master" ≠ Some (HashContent Sample.h0).
Proof.
  destruct rule; cbv zeta; split_and!; try (vm_compute; reflexivity);
    (eapply bool_decide_unpack; vm_compute; exact I).
Qed.

(** *** Commits that change nothing

    Whether a commit on an unchanged worktree is made is go-git's decision,
    taken by the rule of the release in use: the module's options leave
    [AllowEmptyCommits] unset and the module has no check of its own. *)

Lemma autoAddModifiedAndDeleted_staged w :
  Index (Storer (w_r w)) = Filesystem w ->
  Index (Storer (w_r (autoAddModifiedAndDeleted w))) = Filesystem w.
Proof.
  intros Hidx. cbn. rewrite Hidx. apply map_eq. intros path.
  rewrite map_lookup_imap. by destruct (Filesystem w !! path).
Qed.

(** A commit on a fully staged worktree leaves the index as it found it,
    whether it goes through or not. *)
Lemma Worktree_Commit_Index rule w msg opts res w' :
  Index (Storer (w_r w)) = Filesystem w ->
  Worktree_Commit rule w msg opts = (res, w') ->
  Index (Storer (w_r w')) = Filesystem w.
Proof.
  intros Hidx HC. pose proof (autoAddModifiedAndDeleted_staged w Hidx) as Hauto.
  unfold Worktree_Commit in HC.
  destruct (Validate_Parents (w_r w)); [|by simplify_eq].
  set (w1 := if All opts then autoAddModifiedAndDeleted w else w) in HC.
  assert (Index (Storer (w_r w1)) = Filesystem w) as H1 by (subst w1; by destruct (All opts)).
  destruct (refuse_empty _ _ _ _); [by simplify_eq|].
  unfold updateHEAD in HC.
  destruct (Storer_Reference _ HEAD); cbn in HC; by simplify_eq.
Qed.

(** Once HEAD resolves, a go-git that never refuses makes the commit. *)
Lemma Worktree_Commit_NeverRefuse w msg opts h :
  points_to (Storer (w_r w)) HEAD h ->
  exists hnew w', Worktree_Commit NeverRefuse w msg opts = (Ok hnew, w').
Proof.
  intros (ref & Hres & Hh). unfold Worktree_Commit, Validate_Parents, Head. rewrite Hres.
  cbn [refuse_empty]. unfold updateHEAD.
  set (w1 := if All opts then autoAddModifiedAndDeleted w else w).
  assert (References (Storer (w_r w1)) = References (Storer (w_r w))) as Hrefs
    by (subst w1; by destruct (All opts)).
  unfold ResolveReference in Hres. unfold Storer_Reference in *. cbn. rewrite Hrefs.
  destruct (References (Storer (w_r w)) !! HEAD); [|discriminate]. cbn. eauto.
Qed.

(** Under a go-git that never refuses, the commit is made and has its
    parent's tree. *)
Lemma CommitChangesInNewBranch_unchanged_NeverRefuse m commitTitle branchName r fs h parent :
  opens m r ->
  unchanged r fs h parent ->
  exists r' hnew c,
    CommitChangesInNewBranch NeverRefuse m commitTitle branchName
      = (Ok "successfully committed changes", Some r') /\
    points_to (Storer r') HEAD hnew /\
    Objects (Storer r') !! hnew = Some (CommitObject c) /\
    ParentHashes c = [h] /\
    TreeHash c = TreeHash parent.
Proof.
  intros (local & HE & HO) (Hwt & Hidx & HH & Hobj & Htree).
  destruct (HH) as (headRef & HHead & Hh).
  unfold CommitChangesInNewBranch. rewrite HE, HO. unfold Head. rewrite HHead. cbn.
  unfold Repository_Worktree. cbn [wt with_Storer]. rewrite Hwt, Hh.
  unfold Worktree_Add. fold cOpts.
  change (with_repo _ _) with (staged r fs branchName h).
  assert (points_to (Storer (w_r (staged r fs branchName h))) HEAD h) as Hpre.
  { by apply points_to_with_Index, points_to_set_hash. }
  destruct (Worktree_Commit_NeverRefuse _ commitTitle cOpts _ Hpre) as (hnew & w' & HC).
  rewrite HC.
  destruct (Worktree_Commit_ok _ _ _ _ _ _ _ Hpre HC)
    as (c & _ & Hc & Hpar & _ & _ & _ & Ht & HH').
  exists (w_r w'), hnew, c. split_and!; try done.
  rewrite Ht, Htree. do 2 f_equal.
  by apply (Worktree_Commit_Index NeverRefuse (staged r fs branchName h)
              commitTitle cOpts (Ok hnew) w').
Qed.

(** Under a go-git that refuses a commit whose tree is its parent's, the
    module fails with go-git's error. *)
Lemma CommitChangesInNewBranch_unchanged_RefuseUnchangedTree
    m commitTitle branchName r fs h parent :
  opens m r ->
  unchanged r fs h parent ->
  (CommitChangesInNewBranch RefuseUnchangedTree m commitTitle branchName).1
    = Err ("failed to commit changes: " +:+ ErrEmptyCommit).
Proof.
  intros (local & HE & HO) (Hwt & Hidx & HH & Hobj & Htree).
  destruct (HH) as (headRef & HHead & Hh).
  unfold CommitChangesInNewBranch. rewrite HE, HO. unfold Head. rewrite HHead. cbn.
  unfold Repository_Worktree. cbn [wt with_Storer]. rewrite Hwt, Hh.
  unfold Worktree_Add. fold cOpts.
  change (with_repo _ _) with (staged r fs branchName h).
  assert (points_to (Storer (w_r (staged r fs branchName h))) HEAD h) as Hpre.
  { by apply points_to_with_Index, points_to_set_hash. }
  unfold Worktree_Commit, Validate_Parents, Head.
  destruct Hpre as (ref & -> & Href).
  replace (if All cOpts then _ else _)
    with (autoAddModifiedAndDeleted (staged r fs branchName h)) by reflexivity.
  set (w1 := autoAddModifiedAndDeleted (staged r fs branchName h)).
  assert (Index (Storer (w_r w1)) = fs) as -> by (by apply autoAddModifiedAndDeleted_staged).
  unfold refuse_empty, CommitObject_of. rewrite Href.
  replace (Objects (Storer (w_r w1)) !! h) with (Some (CommitObject parent)).
  by rewrite Htree, decide_True.
Qed.

Example unchanged_clean :
  unchanged Sample.clean Sample.tree0 Sample.h0 Sample.commit0.
Proof.
  split_and!; [reflexivity|reflexivity| |vm_compute; reflexivity|reflexivity].
  eexists. split; vm_compute; reflexivity.
Qed.

Example clean_commit_by_rule :
  (CommitChangesInNewBranch NeverRefuse (Sample.gh_on Sample.clean) "Update file" "feature").1
    = Ok "successfully committed changes" /\
  (CommitChangesInNewBranch RefuseEmptyIndex (Sample.gh_on Sample.clean) "Update file" "feature").1
    = Ok "successfully committed changes" /\
  (CommitChangesInNewBranch RefuseUnchangedTree (Sample.gh_on Sample.clean) "Update file" "feature").1
    = Err "failed to commit changes: cannot create empty commit: clean working tree".
Proof. split_and!; vm_compute; reflexivity. Qed.

End Commit.

(** ** CreatePullRequest *)

(** C9. When the call to GitHub fails in the transport, go-github returns a
    nil response with the error, and [CreatePullRequest] panics on
    [rsp.Body] instead of returning an error. *)
Theorem CreatePullRequest_panics_without_response
    (Sprint_Body : string -> string) (m : Gh) (token title newBranch baseBranch : string) :
  Plaintext (Token m) = Ok token ->
  CreatePullRequest unreachable Sprint_Body m title newBranch baseBranch
    = Panics nil_dereference.
Proof. intros Htoken. unfold CreatePullRequest. by rewrite Htoken. Qed.

Lemma CreatePullRequest_panics_without_response_witness :
  CreatePullRequest unreachable (fun body => body) (Sample.gh_on Sample.clean)
                    "New PR" "feature" ""
    = Panics nil_dereference.
Proof.
  apply (CreatePullRequest_panics_without_response
           (fun body => body) (Sample.gh_on Sample.clean) "token").
  reflexivity.
Defined.

(** With a response at hand, the error that comes back carries the cause
    and what [%v] prints for the body. *)
Lemma CreatePullRequest_error_with_response
    (service : Service) (Sprint_Body : string -> string)
    (m : Gh) (token title newBranch baseBranch : string) rsp err :
  Plaintext (Token m) = Ok token ->
  service token (Owner m) (Repo m)
          {| Title := title; PRHead := newBranch;
             Base := if decide (baseBranch = "") then BaseBranch m else baseBranch |}
    = (Some rsp, Some err) ->
  CreatePullRequest service Sprint_Body m title newBranch baseBranch
    = Returns (Err ("failed to create pull request with error: " +:+ err +:+ "."
                    +:+ String "010" "More details in response: "
                    +:+ Sprint_Body (Body rsp))).
Proof. intros Htoken Hcall. unfold CreatePullRequest. by rewrite Htoken, Hcall. Qed.

(** ** Version comparison *)

Section Semver.

Local Open Scope Z_scope.




















Example NewVersion_accepts :
  NewVersion "1.2.0"
    = Ok {| major := 1; minor := 2; patch := 0; pre := ""; metadata := "";
            original := "1.2.0" |} /\
  NewVersion "v1.22"
    = Ok {| major := 1; minor := 22; patch := 0; pre := ""; metadata := "";
            original := "v1.22" |} /\
  NewVersion "1.2.3-rc.1+build.5"
    = Ok {| major := 1; minor := 2; patch := 3; pre := "rc.1"; metadata := "build.5";
            original := "1.2.3-rc.1+build.5" |}.
Proof. split_and!; vm_compute; reflexivity. Qed.

Example NewVersion_rejects :
  NewVersion "" = Err ErrInvalidSemVer /\
  NewVersion "latest" = Err ErrInvalidSemVer /\
  NewVersion "1.2.3.4" = Err ErrInvalidSemVer /\
  NewVersion "1.2.3-" = Err ErrInvalidSemVer /\
  exists e, NewVersion "99999999999999999999.0.0" = Err e.
Proof. split_and!; try (vm_compute; reflexivity). eexists. vm_compute. reflexivity. Qed.

(** Part comparison on the two prereleases of the example: both numbers
    are beyond 64 bits, so they are compared as strings. *)
Example comparePrePart_beyond_uint64 :
  comparePrePart "100000000000000000000" "99999999999999999999" = -1 /\
  (digits_value 0 "100000000000000000000" > digits_value 0 "99999999999999999999").
Proof. split; [vm_compute; reflexivity|vm_compute; reflexivity]. Qed.

(** *** The pattern accepts nothing but version-shaped strings *)







(** A version-shaped string starts with a digit or with [v]. *)
Lemma version_shaped_head (v : string) :
  version_shaped v ->
  exists c rest, v = String c rest /\ (is_digit c = true \/ c = "v"%char).
Proof.
  intros (lead & ma & mi & pa & pr & me & -> & Hlead & [Hma Hd] & _).
  destruct Hlead as [->| ->].
  - destruct ma as [|c ma]; [done|]. cbn in Hd. apply andb_true_iff in Hd as [Hc _].
    eexists c, _. split; [reflexivity|by left].
  - eexists "v"%char, _. split; [reflexivity|by right].
Qed.

Example malformed_strings :
  malformed "" /\ malformed "latest" /\ malformed "release-1.2".
Proof.
  split_and!; intros Hs; apply version_shaped_head in Hs as (c & rest & Hv & Hc);
    [discriminate| |]; injection Hv as <- _; by destruct Hc.
Qed.

End Semver.


(** ** IsNewerVersion and ReturnUpdatedCm *)

Section Istio.

Implicit Types (m : Istio) (a b latest local : Version).








(** A part with a sign is alphanumeric, and so higher than a number; two
    numbers within 64 bits compare as numbers. *)
Example IsNewerVersion_prerelease_parts (cm : File) :
  IsNewerVersion {| LatestVersion := "1.0.0--1"; LocalVersion := "1.0.0-0";
                    ConfigMap := cm |} = Ok true /\
  IsNewerVersion {| LatestVersion := "1.0.0-9223372036854775809";
                    LocalVersion := "1.0.0-18446744073709551615";
                    ConfigMap := cm |} = Ok false /\
  IsNewerVersion {| LatestVersion := "1.0.0-rc.10"; LocalVersion := "1.0.0-rc.9";
                    ConfigMap := cm |} = Ok true.
Proof. split_and!; vm_compute; reflexivity. Qed.




Lemma strip_prefix_app prefix s : LineCodec.strip_prefix prefix (prefix +:+ s) = Some s.
Proof.
  induction prefix as [|c prefix IH]; [done|].
  change (String c prefix +:+ s) with (String c (prefix +:+ s)).
  cbn [LineCodec.strip_prefix]. by rewrite bool_decide_eq_true_2.
Qed.

Lemma strip_prefix_heading key rest :
  LineCodec.strip_prefix (key +:+ LineCodec.nl) (key +:+ LineCodec.nl +:+ rest) = Some rest.
Proof.
  induction key as [|c key IH].
  - change (LineCodec.strip_prefix (String "010" EmptyString) (String "010" rest) = Some rest).
    cbn [LineCodec.strip_prefix]. by rewrite bool_decide_eq_true_2.
  - change (LineCodec.strip_prefix (String c (key +:+ LineCodec.nl))
              (String c (key +:+ LineCodec.nl +:+ rest)) = Some rest).
    cbn [LineCodec.strip_prefix]. by rewrite bool_decide_eq_true_2.
Qed.

Lemma read_line_app line rest :
  LineCodec.single_line line = true ->
  LineCodec.read_line (line +:+ LineCodec.nl +:+ rest) = Some (line, rest).
Proof.
  unfold LineCodec.single_line.
  induction line as [|c line IH].
  - intros _. change (EmptyString +:+ LineCodec.nl +:+ rest) with (String "010" rest).
    cbn [LineCodec.read_line]. by rewrite bool_decide_eq_true_2.
  - change (String c line +:+ LineCodec.nl +:+ rest)
      with (String c (line +:+ LineCodec.nl +:+ rest)).
    cbn [LineCodec.read_line all_chars]. intros [Hc Hline]%andb_true_iff.
    apply negb_true_iff in Hc. rewrite Hc. by rewrite IH.
Qed.

Lemma field_app key value rest :
  LineCodec.single_line value = true ->
  LineCodec.field key (key +:+ value +:+ LineCodec.nl +:+ rest) = Some (value, rest).
Proof.
  intros Hv. unfold LineCodec.field. rewrite strip_prefix_app. by apply read_line_app.
Qed.

Lemma field_last key value :
  LineCodec.single_line value = true ->
  LineCodec.field key (key +:+ value +:+ LineCodec.nl) = Some (value, EmptyString).
Proof. intros Hv. exact (field_app key value EmptyString Hv). Qed.

Lemma LineCodec_round_trip d s :
  LineCodec.Marshal d = Ok s -> LineCodec.Unmarshal s = Ok d.
Proof.
  unfold LineCodec.Marshal, LineCodec.Unmarshal, LineCodec.parse, LineCodec.render.
  destruct (_ && _) eqn:Hsingle; [|done]. intros [= <-].
  repeat (apply andb_true_iff in Hsingle as [Hsingle ?]).
  repeat first [ rewrite field_app by done; cbn [mbind option_bind]
               | rewrite strip_prefix_heading; cbn [mbind option_bind] ].
  rewrite field_last by done. cbn [mbind option_bind].
  rewrite bool_decide_eq_true_2 by done. by destruct d as [? ? [? ? []] []].
Qed.



End Istio.


(** ** Splitting and trimming *)

Section GoStrings.

Implicit Types (s a b suffix : string) (c : ascii).

Lemma lacks_cons c x s : lacks c (String x s) <-> x ≠ c /\ lacks c s.
Proof.
  unfold lacks. cbn [all_chars]. rewrite andb_true_iff, negb_true_iff.
  by rewrite bool_decide_eq_false.
Qed.

Lemma lacks_app c a b : lacks c (a +:+ b) <-> lacks c a /\ lacks c b.
Proof.
  induction a as [|x a IH].
  - change (EmptyString +:+ b) with b. unfold lacks at 2. cbn. tauto.
  - change (String x a +:+ b) with (String x (a +:+ b)). rewrite !lacks_cons, IH. tauto.
Qed.

Lemma Split_nonempty s c : exists part parts, gostrings.Split s c = part :: parts.
Proof.
  induction s as [|x s (part & parts & IH)]; cbn; [by eauto|].
  rewrite IH. case_bool_decide; eauto.
Qed.

Lemma Split_lacks s c : lacks c s -> gostrings.Split s c = [s].
Proof.
  induction s as [|x s IH]; [done|]. intros [Hx Hs]%lacks_cons.
  cbn. rewrite (IH Hs). by rewrite bool_decide_eq_false_2.
Qed.

(** Splitting at a separator splits the two sides. *)
Lemma Split_app_sep a b c :
  gostrings.Split (a +:+ String c b) c = (gostrings.Split a c ++ gostrings.Split b c)%list.
Proof.
  induction a as [|x a IH].
  - change (EmptyString +:+ String c b) with (String c b). cbn.
    destruct (Split_nonempty b c) as (part & parts & ->). by rewrite bool_decide_eq_true_2.
  - change (String x a +:+ String c b) with (String x (a +:+ String c b)).
    cbn. rewrite IH. destruct (Split_nonempty a c) as (part & parts & ->). cbn.
    by case_bool_decide.
Qed.

Lemma Split_length_one s c : length (gostrings.Split s c) = 1 <-> lacks c s.
Proof.
  induction s as [|x s IH]; [done|]. rewrite lacks_cons. cbn.
  destruct (Split_nonempty s c) as (part & parts & Hs). rewrite Hs in *.
  case_bool_decide; cbn in *; [|tauto]. split; [lia|tauto].
Qed.

Lemma length_append a b :
  String.length (a +:+ b) = (String.length a + String.length b)%nat.
Proof.
  induction a as [|x a IH]; [done|].
  change (String x a +:+ b) with (String x (a +:+ b)). cbn. by rewrite IH.
Qed.

Lemma TrimSuffix_app s suffix : gostrings.TrimSuffix (s +:+ suffix) suffix = s.
Proof.
  induction s as [|x s IH].
  - change (EmptyString +:+ suffix) with suffix. destruct suffix; cbn;
      by rewrite bool_decide_eq_true_2.
  - change (String x s +:+ suffix) with (String x (s +:+ suffix)). cbn.
    rewrite bool_decide_eq_false_2, IH; [done|].
    intros Heq. apply (f_equal String.length) in Heq. cbn in Heq.
    rewrite length_append in Heq. lia.
Qed.

(** A character the suffix lacks stops the trimming from reaching across. *)
Lemma TrimSuffix_sep a b c suffix :
  lacks c suffix ->
  gostrings.TrimSuffix (a +:+ String c b) suffix
  = a +:+ String c (gostrings.TrimSuffix b suffix).
Proof.
  intros Hc.
  assert (forall a', a' +:+ String c b ≠ suffix) as Hne.
  { intros a' <-. apply lacks_app in Hc as [_ Hc]. by apply lacks_cons in Hc as [? _]. }
  induction a as [|x a IH].
  - change (EmptyString +:+ String c b) with (String c b).
    cbn. rewrite bool_decide_eq_false_2; [done|]. exact (Hne EmptyString).
  - change (String x a +:+ String c b) with (String x (a +:+ String c b)).
    cbn. rewrite bool_decide_eq_false_2, IH; [done|]. exact (Hne (String x a)).
Qed.

Lemma lacks_TrimSuffix c s suffix : lacks c s -> lacks c (gostrings.TrimSuffix s suffix).
Proof.
  induction s as [|x s IH]; cbn; case_bool_decide; try done.
  intros [? ?]%lacks_cons. apply lacks_cons. auto.
Qed.

End GoStrings.

(** ** The owner and the name of the origin repository *)

Section ExtractRepo.

Implicit Types (url host base owner repo name : string).

Lemma index_second (a b : string) (rest : list string) :
  gostrings.index (a :: b :: rest) 1 = Returns b.
Proof. reflexivity. Qed.

Lemma index_first (a : string) (rest : list string) :
  gostrings.index (a :: rest) 0 = Returns a.
Proof. reflexivity. Qed.

Lemma index_last_two (parts : list string) (a b : string) :
  let all := (parts ++ [a; b])%list in
  gostrings.index all (Z.of_nat (length all) - 2) = Returns a /\
  gostrings.index all (Z.of_nat (length all) - 1) = Returns b.
Proof.
  cbv zeta. rewrite length_app. cbn [length]. unfold gostrings.index.
  replace (Z.of_nat (length parts + 2) - 2)%Z with (Z.of_nat (length parts)) by lia.
  replace (Z.of_nat (length parts + 2) - 1)%Z with (Z.of_nat (S (length parts))) by lia.
  destruct (Z.ltb_spec (Z.of_nat (length parts)) 0); [lia|].
  destruct (Z.ltb_spec (Z.of_nat (S (length parts))) 0); [lia|].
  rewrite !Nat2Z.id. rewrite !lookup_app_r by lia.
  rewrite Nat.sub_diag. replace (S (length parts) - length parts)%nat with 1%nat by lia.
  done.
Qed.

Lemma last_two (parts : list string) :
  (2 <= length parts)%nat -> exists front a b, parts = (front ++ [a; b])%list.
Proof.
  destruct parts as [|b parts _] using rev_ind; [cbn; lia|].
  destruct parts as [|a front _] using rev_ind; [cbn; lia|].
  intros _. exists front, a, b. by rewrite <- app_assoc.
Qed.

Lemma lacks_colon_git : lacks ":" ".git".
Proof. reflexivity. Qed.

Lemma lacks_slash_git : lacks "/" ".git".
Proof. reflexivity. Qed.

Lemma extractRepoOwnerAndNameSSH_parts host owner name :
  lacks ":" host -> lacks ":" owner -> lacks "/" owner ->
  lacks ":" name -> lacks "/" name ->
  GhCli.extractRepoOwnerAndNameSSH (host +:+ String ":" (owner +:+ String "/" name))
  = Returns (owner, gostrings.TrimSuffix name ".git").
Proof.
  intros Hh Ho Ho' Hn Hn'. unfold GhCli.extractRepoOwnerAndNameSSH.
  rewrite (TrimSuffix_sep host _ ":" ".git" lacks_colon_git).
  rewrite (TrimSuffix_sep owner _ "/" ".git" lacks_slash_git).
  set (name' := gostrings.TrimSuffix name ".git").
  assert (lacks ":" name') by (by apply lacks_TrimSuffix).
  assert (lacks "/" name') by (by apply lacks_TrimSuffix).
  rewrite Split_app_sep, (Split_lacks host) by done.
  rewrite (Split_lacks (owner +:+ String "/" name') ":").
  2: { apply lacks_app. split; [done|]. by apply lacks_cons. }
  cbn [app]. rewrite index_second.
  rewrite Split_app_sep, (Split_lacks owner), (Split_lacks name') by done.
  cbn [app]. by rewrite index_first, index_second.
Qed.

Lemma extractRepoOwnerAndNameHTTPS_parts base owner name :
  lacks "/" owner -> lacks "/" name ->
  GhCli.extractRepoOwnerAndNameHTTPS (base +:+ String "/" (owner +:+ String "/" name))
  = Returns (owner, gostrings.TrimSuffix name ".git").
Proof.
  intros Ho Hn. unfold GhCli.extractRepoOwnerAndNameHTTPS.
  rewrite (TrimSuffix_sep base _ "/" ".git" lacks_slash_git).
  rewrite (TrimSuffix_sep owner _ "/" ".git" lacks_slash_git).
  set (name' := gostrings.TrimSuffix name ".git").
  assert (lacks "/" name') by (by apply lacks_TrimSuffix).
  rewrite Split_app_sep. rewrite (Split_app_sep owner name').
  rewrite (Split_lacks owner), (Split_lacks name') by done. cbn [app].
  destruct (index_last_two (gostrings.Split base "/") owner name') as [-> ->]. done.
Qed.

Lemma extractRepoOwnerAndNameSSH_dot_git host owner repo :
  lacks ":" host -> lacks ":" owner -> lacks "/" owner ->
  lacks ":" repo -> lacks "/" repo ->
  GhCli.extractRepoOwnerAndNameSSH (host +:+ ":" +:+ owner +:+ "/" +:+ repo +:+ ".git")
    = Returns (owner, repo).
Proof.
  intros Hh Ho Ho' Hr Hr'.
  change (host +:+ ":" +:+ owner +:+ "/" +:+ repo +:+ ".git")
    with (host +:+ String ":" (owner +:+ String "/" (repo +:+ ".git"))).
  rewrite extractRepoOwnerAndNameSSH_parts; try done.
  - by rewrite TrimSuffix_app.
  - apply lacks_app. split; [done|reflexivity].
  - apply lacks_app. split; [done|reflexivity].
Qed.

Lemma extractRepoOwnerAndNameHTTPS_dot_git base owner repo :
  lacks "/" owner -> lacks "/" repo ->
  GhCli.extractRepoOwnerAndNameHTTPS (base +:+ "/" +:+ owner +:+ "/" +:+ repo +:+ ".git")
    = Returns (owner, repo).
Proof.
  intros Ho Hr.
  change (base +:+ "/" +:+ owner +:+ "/" +:+ repo +:+ ".git")
    with (base +:+ String "/" (owner +:+ String "/" (repo +:+ ".git"))).
  rewrite extractRepoOwnerAndNameHTTPS_parts; try done.
  - by rewrite TrimSuffix_app.
  - apply lacks_app. split; [done|reflexivity].
Qed.

(** X1. On an SSH remote [host:owner/repo.git] the owner and the
    repository name are returned, whatever [host] is; without the [.git]
    ending the name still loses a [.git] it ends in. *)
Theorem extractRepoOwnerAndNameSSH_owner_repo host owner repo :
  lacks ":" host -> lacks ":" owner -> lacks "/" owner ->
  lacks ":" repo -> lacks "/" repo ->
  GhCli.extractRepoOwnerAndNameSSH (host +:+ ":" +:+ owner +:+ "/" +:+ repo +:+ ".git")
    = Returns (owner, repo) /\
  GhCli.extractRepoOwnerAndNameSSH (host +:+ ":" +:+ owner +:+ "/" +:+ repo)
    = Returns (owner, gostrings.TrimSuffix repo ".git").
Proof.
  intros Hh Ho Ho' Hr Hr'. split.
  - by apply extractRepoOwnerAndNameSSH_dot_git.
  - change (host +:+ ":" +:+ owner +:+ "/" +:+ repo)
      with (host +:+ String ":" (owner +:+ String "/" repo)).
    by apply extractRepoOwnerAndNameSSH_parts.
Qed.

Lemma extractRepoOwnerAndNameSSH_owner_repo_witness :
  GhCli.extractRepoOwnerAndNameSSH
    ("git@github.com" +:+ ":" +:+ "adore-me" +:+ "/" +:+ "daggerverse" +:+ ".git")
    = Returns ("adore-me", "daggerverse") /\
  GhCli.extractRepoOwnerAndNameSSH
    ("git@github.com" +:+ ":" +:+ "adore-me" +:+ "/" +:+ "daggerverse")
    = Returns ("adore-me", gostrings.TrimSuffix "daggerverse" ".git").
Proof.
  apply (extractRepoOwnerAndNameSSH_owner_repo "git@github.com" "adore-me" "daggerverse");
    reflexivity.
Defined.

(** X2. On a URL that ends in [/owner/repo.git] the owner and the
    repository name are returned, whatever comes before; without the
    [.git] ending the name still loses a [.git] it ends in. *)
Theorem extractRepoOwnerAndNameHTTPS_owner_repo base owner repo :
  lacks "/" owner -> lacks "/" repo ->
  GhCli.extractRepoOwnerAndNameHTTPS (base +:+ "/" +:+ owner +:+ "/" +:+ repo +:+ ".git")
    = Returns (owner, repo) /\
  GhCli.extractRepoOwnerAndNameHTTPS (base +:+ "/" +:+ owner +:+ "/" +:+ repo)
    = Returns (owner, gostrings.TrimSuffix repo ".git").
Proof.
  intros Ho Hr. split.
  - by apply extractRepoOwnerAndNameHTTPS_dot_git.
  - change (base +:+ "/" +:+ owner +:+ "/" +:+ repo)
      with (base +:+ String "/" (owner +:+ String "/" repo)).
    by apply extractRepoOwnerAndNameHTTPS_parts.
Qed.

Lemma extractRepoOwnerAndNameHTTPS_owner_repo_witness :
  GhCli.extractRepoOwnerAndNameHTTPS
    ("https://github.com" +:+ "/" +:+ "adore-me" +:+ "/" +:+ "daggerverse" +:+ ".git")
    = Returns ("adore-me", "daggerverse") /\
  GhCli.extractRepoOwnerAndNameHTTPS
    ("https://github.com" +:+ "/" +:+ "adore-me" +:+ "/" +:+ "daggerverse")
    = Returns ("adore-me", gostrings.TrimSuffix "daggerverse" ".git").
Proof.
  apply (extractRepoOwnerAndNameHTTPS_owner_repo "https://github.com" "adore-me"
           "daggerverse"); reflexivity.
Defined.

(** X3. [extractRepoOwnerAndNameHTTPS] panics with an index out of range
    exactly on the URLs that, once a [.git] ending is removed, hold no
    slash; the empty URL is one of them. On every other URL it returns. *)
Theorem extractRepoOwnerAndNameHTTPS_panics url :
  let trimmed := gostrings.TrimSuffix url ".git" in
  (lacks "/" trimmed ->
   GhCli.extractRepoOwnerAndNameHTTPS url
     = Panics "runtime error: index out of range [-1]") /\
  (~ lacks "/" trimmed ->
   exists owner name, GhCli.extractRepoOwnerAndNameHTTPS url = Returns (owner, name)) /\
  GhCli.extractRepoOwnerAndNameHTTPS ""
    = Panics "runtime error: index out of range [-1]".
Proof.
  cbv zeta. split_and!; [| |reflexivity].
  - intros Hl. unfold GhCli.extractRepoOwnerAndNameHTTPS.
    rewrite (Split_lacks _ _ Hl). reflexivity.
  - intros Hl. unfold GhCli.extractRepoOwnerAndNameHTTPS.
    pose proof (Split_length_one (gostrings.TrimSuffix url ".git") "/") as Hlen.
    destruct (Split_nonempty (gostrings.TrimSuffix url ".git") "/") as (part & parts & Hs).
    destruct (last_two (gostrings.Split (gostrings.TrimSuffix url ".git") "/"))
      as (front & a & b & Heq).
    { rewrite Hs in *. destruct parts; cbn in *; [|lia]. exfalso. by apply Hl, Hlen. }
    rewrite Heq. destruct (index_last_two front a b) as [-> ->]. eauto.
Qed.

(** X4. [extractRepoOwnerAndNameSSH] panics with an index out of range on
    a URL without a colon, and on a URL whose part after the colon holds
    no slash, as [git@host:repo.git] does. *)
Theorem extractRepoOwnerAndNameSSH_panics url :
  let trimmed := gostrings.TrimSuffix url ".git" in
  lacks ":" trimmed \/
  (exists host second,
     trimmed = host +:+ String ":" second /\
     lacks ":" host /\ lacks ":" second /\ lacks "/" second) ->
  GhCli.extractRepoOwnerAndNameSSH url
    = Panics "runtime error: index out of range [1] with length 1".
Proof.
  cbv zeta. unfold GhCli.extractRepoOwnerAndNameSSH.
  intros [Hl|(host & second & -> & Hh & Hs & Hs')].
  - rewrite (Split_lacks _ _ Hl). reflexivity.
  - rewrite Split_app_sep, (Split_lacks host), (Split_lacks second ":") by done.
    cbn [app]. rewrite index_second, (Split_lacks second "/") by done. reflexivity.
Qed.

Lemma extractRepoOwnerAndNameSSH_panics_witness :
  GhCli.extractRepoOwnerAndNameSSH "git@github.com:daggerverse.git"
    = Panics "runtime error: index out of range [1] with length 1".
Proof.
  apply (extractRepoOwnerAndNameSSH_panics "git@github.com:daggerverse.git").
  right. exists "git@github.com", "daggerverse". split_and!; reflexivity.
Defined.

End ExtractRepo.

(** ** extractRepoOwnerAndName and RunGit *)

Section RunGit.

Context {Sec : Type}.
Variable SecName : Sec -> string.
Variable HasKey : Sec -> string -> bool.
Variable KeyString : Sec -> string -> string.
Variable File_Export : Directory -> string -> string -> option error.
Variable ini_Load : Directory -> string -> Result (list Sec).
Variable Sync : GhCli.Container -> Result GhCli.Container.

Abbreviation last_url := (GhCli.last_url Sec SecName HasKey KeyString).
Abbreviation extractRepoOwnerAndName :=
  (GhCli.extractRepoOwnerAndName Sec SecName HasKey KeyString File_Export ini_Load).
Abbreviation RunGit :=
  (GhCli.RunGit Sec SecName HasKey KeyString File_Export ini_Load Sync).

(** The section carries a [url] key and is not the default section. *)
Abbreviation names_url section :=
  (HasKey section "url" = true /\ SecName section ≠ "DEFAULT").

Lemma fold_url_skips (sections : list Sec) (url : string) :
  Forall (fun section => ~ names_url section) sections ->
  fold_left
    (fun url section =>
       if HasKey section "url" && negb (bool_decide (SecName section = "DEFAULT"))
       then KeyString section "url" else url)
    sections url = url.
Proof.
  intros Hall. revert url. induction Hall as [|section sections Hno _ IH]; intros url; [done|].
  cbn. rewrite IH. destruct (HasKey section "url") eqn:Hk; [|done].
  case_bool_decide; [done|]. exfalso. by apply Hno.
Qed.

Lemma last_url_none (sections : list Sec) :
  Forall (fun section => ~ names_url section) sections -> last_url sections = EmptyString.
Proof. apply fold_url_skips. Qed.

Lemma last_url_last (before after : list Sec) (section : Sec) :
  names_url section ->
  Forall (fun later => ~ names_url later) after ->
  last_url (before ++ section :: after)%list = KeyString section "url".
Proof.
  intros [Hk Hn] Hafter. unfold GhCli.last_url. rewrite fold_left_app. cbn [fold_left].
  rewrite Hk, bool_decide_eq_false_2 by done. cbn [andb negb]. by apply fold_url_skips.
Qed.

Lemma HasPrefix_git (rest : string) : gostrings.HasPrefix ("git@" +:+ rest) "git@" = true.
Proof.
  unfold gostrings.HasPrefix. change ("git@" +:+ rest) with (String "g" (String "i" (String "t" (String "@" rest)))).
  cbn. by destruct rest.
Qed.

(** X5. The URL [extractRepoOwnerAndName] works on is the [url] key of the
    last section of the git config that has one and is not the default
    section: with several remotes the last one decides. A URL that starts
    with [git@] is taken apart as an SSH remote, any other by its slashes. *)
Theorem extractRepoOwnerAndName_last_section
    (m : GhCli.Gh) (before after : list Sec) (section : Sec) :
  File_Export (GhCli.RepoPath m) ".git/config" "/workspace/git-config" = None ->
  ini_Load (GhCli.RepoPath m) "/workspace/git-config" = Ok (before ++ section :: after)%list ->
  names_url section ->
  Forall (fun later => ~ names_url later) after ->
  extractRepoOwnerAndName m =
    match (if gostrings.HasPrefix (KeyString section "url") "git@"
           then GhCli.extractRepoOwnerAndNameSSH (KeyString section "url")
           else GhCli.extractRepoOwnerAndNameHTTPS (KeyString section "url")) with
    | Panics msg => Panics msg
    | Returns found => Returns (Ok found)
    end.
Proof.
  intros He Hl Hs Hafter. unfold GhCli.extractRepoOwnerAndName.
  rewrite He, Hl, (last_url_last before after section Hs Hafter).
  destruct (if gostrings.HasPrefix _ _ then _ else _) as [[owner repo]|msg]; done.
Qed.

(** X6. When no section of the git config has a [url] key, or only the
    default section has, [extractRepoOwnerAndName] does not return an
    error: it panics with an index out of range, and so does [RunGit]. *)
Theorem RunGit_panics_without_remote
    (m : GhCli.Gh) (cfg : list Sec) (tk cmd version userEmail userName : string) :
  Plaintext (GhCli.Token m) = Ok tk ->
  File_Export (GhCli.RepoPath m) ".git/config" "/workspace/git-config" = None ->
  ini_Load (GhCli.RepoPath m) "/workspace/git-config" = Ok cfg ->
  Forall (fun section => ~ names_url section) cfg ->
  extractRepoOwnerAndName m = Panics "runtime error: index out of range [-1]" /\
  RunGit m cmd version userEmail userName
    = Panics "runtime error: index out of range [-1]".
Proof.
  intros Htk He Hl Hnone.
  assert (extractRepoOwnerAndName m = Panics "runtime error: index out of range [-1]") as Hx.
  { unfold GhCli.extractRepoOwnerAndName. by rewrite He, Hl, (last_url_none cfg Hnone). }
  split; [done|]. unfold GhCli.RunGit. by rewrite Htk, Hx.
Qed.

(** X7. For an origin [git@host:owner/repo.git] as for an origin
    [base/owner/repo.git], [RunGit] hands the engine the pipeline that
    points origin at [github.com/owner/repo.git] with the token's plaintext
    in the URL, whatever host the config named, and runs [git cmd] last;
    what the engine answers is what [RunGit] returns. *)
Theorem RunGit_points_origin_at_github
    (m : GhCli.Gh) (cfg : list Sec)
    (tk cmd version userEmail userName host owner repo : string) :
  Plaintext (GhCli.Token m) = Ok tk ->
  File_Export (GhCli.RepoPath m) ".git/config" "/workspace/git-config" = None ->
  ini_Load (GhCli.RepoPath m) "/workspace/git-config" = Ok cfg ->
  lacks ":" owner -> lacks "/" owner -> lacks ":" repo -> lacks "/" repo ->
  (last_url cfg = "git@" +:+ host +:+ ":" +:+ owner +:+ "/" +:+ repo +:+ ".git"
   /\ lacks ":" host) \/
  (last_url cfg = host +:+ "/" +:+ owner +:+ "/" +:+ repo +:+ ".git"
   /\ gostrings.HasPrefix (last_url cfg) "git@" = false) ->
  let pipeline := GhCli.git_pipeline m tk owner repo cmd version userEmail userName in
  RunGit m cmd version userEmail userName =
    match Sync pipeline with
    | Err err => Returns (Err ("failed to run git command: " +:+ err))
    | Ok c => Returns (Ok c)
    end /\
  pipeline !! 6%nat =
    Some (GhCli.WithExec
            ["sh"; "-c";
             "git remote set-url origin https://" +:+ tk +:+ ":x-oauth-basic@github.com/"
               +:+ owner +:+ "/" +:+ repo +:+ ".git"]
            {| GhCli.SkipEntrypoint := true |}) /\
  pipeline !! 7%nat =
    Some (GhCli.WithExec ["sh"; "-c"; "git " +:+ cmd] {| GhCli.SkipEntrypoint := true |}) /\
  length pipeline = 8%nat.
Proof.
  intros Htk He Hl Ho Ho' Hr Hr' Hurl. cbv zeta. split_and!; [|reflexivity..].
  assert (extractRepoOwnerAndName m = Returns (Ok (owner, repo))) as Hx.
  { unfold GhCli.extractRepoOwnerAndName. rewrite He, Hl.
    destruct Hurl as [[-> Hh]|[Hu Hp]].
    - rewrite HasPrefix_git.
      assert (lacks ":" ("git@" +:+ host)) as Hgh.
      { apply lacks_app. split; [reflexivity|done]. }
      pose proof (extractRepoOwnerAndNameSSH_dot_git ("git@" +:+ host) owner repo
                    Hgh Ho Ho' Hr Hr') as Hssh.
      change (("git@" +:+ host) +:+ ":" +:+ owner +:+ "/" +:+ repo +:+ ".git")
        with ("git@" +:+ host +:+ ":" +:+ owner +:+ "/" +:+ repo +:+ ".git") in Hssh.
      by rewrite Hssh.
    - rewrite Hp, Hu.
      by rewrite extractRepoOwnerAndNameHTTPS_dot_git. }
  unfold GhCli.RunGit. by rewrite Htk, Hx.
Qed.

End RunGit.

Lemma extractRepoOwnerAndName_last_section_witness :
  GhCli.extractRepoOwnerAndName SampleCli.Sec SampleCli.name SampleCli.HasKey
    SampleCli.KeyString SampleCli.exports
    (SampleCli.loads (SampleCli.origin "git@github.com:adore-me/daggerverse.git"))
    SampleCli.gh
  = Returns (Ok ("adore-me", "daggerverse")).
Proof.
  rewrite (extractRepoOwnerAndName_last_section SampleCli.name SampleCli.HasKey
             SampleCli.KeyString SampleCli.exports
             (SampleCli.loads (SampleCli.origin "git@github.com:adore-me/daggerverse.git"))
             SampleCli.gh
             (take 2 (SampleCli.origin "git@github.com:adore-me/daggerverse.git"))
             (drop 3 (SampleCli.origin "git@github.com:adore-me/daggerverse.git"))
             {| SampleCli.name :=
                  "remote " +:+ String "034" ("origin" +:+ String "034" EmptyString);
                SampleCli.keys :=
                  [("url", "git@github.com:adore-me/daggerverse.git");
                   ("fetch", "+refs/heads/*:refs/remotes/origin/*")] |}).
  - vm_compute. reflexivity.
  - reflexivity.
  - reflexivity.
  - split; [vm_compute; reflexivity|discriminate].
  - repeat constructor. intros [Hk _]. vm_compute in Hk. discriminate.
Defined.

Lemma RunGit_panics_without_remote_witness :
  GhCli.extractRepoOwnerAndName SampleCli.Sec SampleCli.name SampleCli.HasKey
    SampleCli.KeyString SampleCli.exports (SampleCli.loads SampleCli.no_remote) SampleCli.gh
    = Panics "runtime error: index out of range [-1]" /\
  GhCli.RunGit SampleCli.Sec SampleCli.name SampleCli.HasKey SampleCli.KeyString
    SampleCli.exports (SampleCli.loads SampleCli.no_remote) SampleCli.runs
    SampleCli.gh "status" "2.43.0" "action@github.com" "GitHub Action"
    = Panics "runtime error: index out of range [-1]".
Proof.
  apply (RunGit_panics_without_remote SampleCli.name SampleCli.HasKey SampleCli.KeyString
           SampleCli.exports (SampleCli.loads SampleCli.no_remote) SampleCli.runs
           SampleCli.gh SampleCli.no_remote "TOKEN").
  - reflexivity.
  - reflexivity.
  - reflexivity.
  - repeat constructor; intros [Hk Hn]; vm_compute in Hk; (discriminate || by apply Hn).
Defined.

Lemma RunGit_points_origin_at_github_witness :
  let pipeline := GhCli.git_pipeline SampleCli.gh "TOKEN" "adore-me" "daggerverse"
                    "status" "2.43.0" "action@github.com" "GitHub Action" in
  GhCli.RunGit SampleCli.Sec SampleCli.name SampleCli.HasKey SampleCli.KeyString
    SampleCli.exports
    (SampleCli.loads (SampleCli.origin "git@gitlab.example.org:adore-me/daggerverse.git"))
    SampleCli.runs SampleCli.gh "status" "2.43.0" "action@github.com" "GitHub Action"
  = match SampleCli.runs pipeline with
    | Err err => Returns (Err ("failed to run git command: " +:+ err))
    | Ok c => Returns (Ok c)
    end /\
  pipeline !! 6%nat =
    Some (GhCli.WithExec
            ["sh"; "-c";
             "git remote set-url origin https://" +:+ "TOKEN" +:+ ":x-oauth-basic@github.com/"
               +:+ "adore-me" +:+ "/" +:+ "daggerverse" +:+ ".git"]
            {| GhCli.SkipEntrypoint := true |}) /\
  pipeline !! 7%nat =
    Some (GhCli.WithExec ["sh"; "-c"; "git " +:+ "status"] {| GhCli.SkipEntrypoint := true |}) /\
  length pipeline = 8%nat.
Proof.
  apply (RunGit_points_origin_at_github SampleCli.name SampleCli.HasKey SampleCli.KeyString
           SampleCli.exports
           (SampleCli.loads
              (SampleCli.origin "git@gitlab.example.org:adore-me/daggerverse.git"))
           SampleCli.runs SampleCli.gh
           (SampleCli.origin "git@gitlab.example.org:adore-me/daggerverse.git")
           "TOKEN" "status" "2.43.0" "action@github.com" "GitHub Action"
           "gitlab.example.org" "adore-me" "daggerverse");
    try reflexivity.
  left. split; [vm_compute; reflexivity|reflexivity].
Defined.

(** ** More on CreateLocalBranch and CommitChangesInNewBranch *)

Section Branches.

Implicit Types (m : Gh) (r : Repository) (w : Worktree) (h : Hash) (rule : EmptyCommitRule).

Lemma hash_object_inj o1 o2 : hash_object o1 = hash_object o2 -> o1 = o2.
Proof. unfold hash_object. intros [= H]. by apply (inj encode). Qed.

Lemma containsUnstagedChanges_true w :
  containsUnstagedChanges w = true <-> unstaged_change (w_r w) (Filesystem w).
Proof.
  unfold containsUnstagedChanges, unstaged_change.
  rewrite negb_true_iff, bool_decide_eq_false.
  apply map_not_Forall. intros path content. cbn beta. apply _.
Qed.

Lemma setHEADCommit_key r h r2 :
  setHEADCommit r h = Ok r2 ->
  References (Storer r2) = <[moved_by_commit r := HashContent h]> (References (Storer r)).
Proof.
  unfold setHEADCommit, moved_by_commit, Storer_Reference.
  destruct (References (Storer r) !! HEAD) as [[h'|target]|]; cbn; [by intros [= <-]| |done].
  destruct (References (Storer r) !! target) as [[?|?]|]; cbn; by intros [= <-].
Qed.

(** Whatever happens in a checkout, no object is added or lost. *)
Lemma Checkout_Objects w opts :
  Objects (Storer (w_r (Checkout w opts).2)) = Objects (Storer (w_r w)).
Proof.
  unfold Checkout. destruct (getCommitFromCheckoutOptions _ _) as [c|]; [|done].
  unfold setHEADToBranch. destruct (Storer_Reference _ (Branch opts)) as [target|]; [|done].
  cbn. unfold Reset. destruct (containsUnstagedChanges _); [done|].
  destruct (setHEADCommit _ c) as [r1|] eqn:Hset; [|done].
  apply setHEADCommit_post in Hset as (k & Hs & _).
  destruct (getTreeFromCommitHash r1 c); cbn; by rewrite Hs.
Qed.

(** A checkout writes HEAD and the branch it checks out, nothing else. *)
Lemma Checkout_References w opts n :
  n ≠ HEAD -> n ≠ Branch opts ->
  References (Storer (w_r (Checkout w opts).2)) !! n = References (Storer (w_r w)) !! n.
Proof.
  intros HnH Hnb. unfold Checkout.
  destruct (getCommitFromCheckoutOptions _ _) as [c|]; [|done].
  unfold setHEADToBranch, Storer_Reference.
  destruct (References (Storer (w_r w)) !! Branch opts) as [content|] eqn:Hb; [|done].
  cbn [SetReference]. unfold Reset. destruct (containsUnstagedChanges _).
  { cbn. rewrite lookup_insert_ne; [done|]. by destruct content. }
  set (r1 := with_Storer (w_r w) _).
  assert (References (Storer r1) !! n = References (Storer (w_r w)) !! n) as Hr1.
  { subst r1. cbn. rewrite lookup_insert_ne; [done|]. by destruct content. }
  change (w_r (with_repo w r1)) with r1.
  destruct (setHEADCommit r1 c) as [r2|] eqn:H2; [|exact Hr1].
  apply setHEADCommit_key in H2.
  assert (References (Storer r2) !! n = References (Storer r1) !! n) as Hr2.
  { rewrite H2. apply lookup_insert_ne. unfold moved_by_commit. subst r1.
    destruct content; cbn; rewrite lookup_insert_eq; congruence. }
  destruct (getTreeFromCommitHash r2 c); cbn; congruence.
Qed.

(** X8. [CreateLocalBranch] never adds an object, and the only references
    it can write are HEAD, the base branch and the new branch, whether it
    succeeds or fails and whatever state the repository is in. *)
Theorem CreateLocalBranch_frame m branchName r res r' :
  opens m r ->
  CreateLocalBranch m branchName = (res, Some r') ->
  Objects (Storer r') = Objects (Storer r) /\
  forall n,
    n ≠ HEAD -> n ≠ NewBranchReferenceName (BaseBranch m) ->
    n ≠ NewBranchReferenceName branchName ->
    References (Storer r') !! n = References (Storer r) !! n.
Proof.
  intros (local & HE & HO) Hrun. unfold CreateLocalBranch in Hrun. rewrite HE, HO in Hrun.
  destruct (Repository_Reference r _ true); [|by simplify_eq].
  unfold Repository_Worktree in Hrun. destruct (wt r) as [fs|]; [|by simplify_eq].
  pose proof (Checkout_Objects {| w_r := r; Filesystem := fs |}
                {| Branch := NewBranchReferenceName (BaseBranch m) |}) as HObj.
  pose proof (Checkout_References {| w_r := r; Filesystem := fs |}
                {| Branch := NewBranchReferenceName (BaseBranch m) |}) as HRef.
  destruct (Checkout _ _) as [err w1]. cbn [snd w_r Branch] in *.
  destruct (Head (w_r w1)); cbn in Hrun; simplify_eq; (split; [done|]); intros n ? ? ?.
  - cbn. rewrite lookup_insert_ne by done. by apply HRef.
  - by apply HRef.
Qed.

Lemma CreateLocalBranch_frame_witness :
  let out := CreateLocalBranch (Sample.gh_on Sample.edited) "feature" in
  let r' := default Sample.edited out.2 in
  Objects (Storer r') = Objects (Storer Sample.edited) /\
  forall n,
    n ≠ HEAD -> n ≠ NewBranchReferenceName "master" ->
    n ≠ NewBranchReferenceName "feature" ->
    References (Storer r') !! n = References (Storer Sample.edited) !! n.
Proof.
  cbv zeta.
  apply (CreateLocalBranch_frame (Sample.gh_on Sample.edited) "feature" Sample.edited
           (Ok "created local branch feature")).
  - eexists. split; reflexivity.
  - apply run_succeeded; vm_compute; reflexivity.
Defined.

(** X9. When the base branch does not exist, [CreateLocalBranch] fails
    with go-git's reference-not-found error under the prefix of the lookup
    and leaves the repository exactly as it found it: no checkout is tried
    and no branch is written. *)
Theorem CreateLocalBranch_missing_base m branchName r :
  opens m r ->
  References (Storer r) !! NewBranchReferenceName (BaseBranch m) = None ->
  CreateLocalBranch m branchName
    = (Err "failed to get reference: reference not found", Some r).
Proof.
  intros (local & HE & HO) Hnone.
  unfold CreateLocalBranch, Repository_Reference, ResolveReference, Storer_Reference.
  by rewrite HE, HO, Hnone.
Qed.

Lemma CreateLocalBranch_missing_base_witness :
  CreateLocalBranch
    {| Owner := "adore-me"; Repo := "daggerverse"; BaseBranch := "main";
       Token := {| Plaintext := Ok "token" |};
       RepoPath := {| dir_export_error := None; dir_repo := Some Sample.clean |} |}
    "feature"
  = (Err "failed to get reference: reference not found", Some Sample.clean).
Proof.
  apply CreateLocalBranch_missing_base.
  - eexists. split; reflexivity.
  - vm_compute. reflexivity.
Defined.

(** X10. On a worktree that has changed or lost a tracked file,
    [CreateLocalBranch] leaves the worktree and the index as they are,
    whether it succeeds or fails: the edits are never overwritten by the
    base branch. *)
Theorem CreateLocalBranch_keeps_unstaged_work m branchName r fs res r' :
  opens m r ->
  wt r = Some fs ->
  unstaged_change r fs ->
  CreateLocalBranch m branchName = (res, Some r') ->
  wt r' = Some fs /\ Index (Storer r') = Index (Storer r).
Proof.
  intros (local & HE & HO) Hwt Hdirty Hrun. unfold CreateLocalBranch in Hrun.
  rewrite HE, HO in Hrun.
  destruct (Repository_Reference r _ true); [|by simplify_eq].
  unfold Repository_Worktree in Hrun. rewrite Hwt in Hrun.
  assert (let w1 := (Checkout {| w_r := r; Filesystem := fs |}
                      {| Branch := NewBranchReferenceName (BaseBranch m) |}).2 in
          wt (w_r w1) = Some fs /\ Index (Storer (w_r w1)) = Index (Storer r)) as Hco.
  { unfold Checkout. destruct (getCommitFromCheckoutOptions _ _) as [c|]; [|done].
    unfold setHEADToBranch. destruct (Storer_Reference _ _) as [target|]; [|done].
    cbn [SetReference]. unfold Reset.
    rewrite (proj2 (containsUnstagedChanges_true _)); [done|]. exact Hdirty. }
  destruct (Checkout _ _) as [err w1]. cbn [snd] in Hco. destruct Hco as [Hwt1 Hidx1].
  destruct (Head (w_r w1)); cbn in Hrun; by simplify_eq.
Qed.

Lemma CreateLocalBranch_keeps_unstaged_work_witness :
  let out := CreateLocalBranch (Sample.gh_on Sample.edited) "feature" in
  let r' := default Sample.edited out.2 in
  wt r' = Some Sample.edited_fs /\ Index (Storer r') = Index (Storer Sample.edited).
Proof.
  cbv zeta.
  apply (CreateLocalBranch_keeps_unstaged_work (Sample.gh_on Sample.edited) "feature"
           Sample.edited Sample.edited_fs (Ok "created local branch feature")).
  - eexists. split; reflexivity.
  - reflexivity.
  - exists "README.md", "hello". split; [vm_compute; reflexivity|].
    vm_compute. discriminate.
  - apply run_succeeded; vm_compute; reflexivity.
Defined.

(** *** Where a commit goes *)

Lemma resolveReference_self_loop (s : Storage) (n : ReferenceName) (budget : nat) :
  References s !! HEAD = Some (SymbolicContent HEAD) ->
  resolveReference s (SymbolicReference n HEAD) budget = Err ErrMaxResolveRecursion.
Proof.
  intros Hloop. revert n. induction budget as [|budget IH]; intros n; [done|].
  cbn. unfold Storer_Reference. rewrite Hloop. cbn. apply IH.
Qed.

(** HEAD cannot resolve through a reference to itself. *)
Lemma Head_not_self r headRef target :
  Head r = Ok headRef ->
  References (Storer r) !! HEAD = Some (SymbolicContent target) ->
  target ≠ HEAD.
Proof.
  intros HHead Hl ->. unfold Head, ResolveReference, Storer_Reference in HHead.
  rewrite Hl in HHead. cbn [reference_at] in HHead.
  by rewrite resolveReference_self_loop in HHead.
Qed.

(** A commit writes one reference, the one HEAD stands for, and only when
    it goes through. *)
Lemma Worktree_Commit_References rule w msg opts res w' :
  Worktree_Commit rule w msg opts = (res, w') ->
  (forall n, n ≠ moved_by_commit (w_r w) ->
     References (Storer (w_r w')) !! n = References (Storer (w_r w)) !! n) /\
  (forall hnew, res = Ok hnew ->
     References (Storer (w_r w')) !! moved_by_commit (w_r w) = Some (HashContent hnew)).
Proof.
  intros HC. unfold Worktree_Commit in HC.
  destruct (Validate_Parents (w_r w)); [|by simplify_eq].
  set (w1 := if All opts then autoAddModifiedAndDeleted w else w) in HC.
  assert (References (Storer (w_r w1)) = References (Storer (w_r w))) as Hrefs
    by (subst w1; by destruct (All opts)).
  destruct (refuse_empty _ _ _ _); [simplify_eq; by rewrite Hrefs|].
  unfold updateHEAD, Storer_Reference, moved_by_commit in *.
  cbn [store_object with_Storer Storer with_Objects References] in HC.
  rewrite Hrefs in HC.
  destruct (References (Storer (w_r w)) !! HEAD) as [[h|target]|]; cbn in HC; simplify_eq;
    cbn; rewrite ?Hrefs; (split; [|intros ? [= <-]; by rewrite ?lookup_insert_eq]);
    intros n Hn; by rewrite ?lookup_insert_ne.
Qed.

(** What a commit that goes through stores and what it leaves alone. *)
Lemma Worktree_Commit_stores rule w msg opts hnew w' :
  Worktree_Commit rule w msg opts = (Ok hnew, w') ->
  exists c,
    Objects (Storer (w_r w')) !! hnew = Some (CommitObject c) /\
    Message c = msg /\
    Objects (Storer (w_r w')) !! TreeHash c
      = Some (TreeObject (Index (Storer (w_r w')))) /\
    wt (w_r w') = wt (w_r w) /\
    Filesystem w' = Filesystem w.
Proof.
  intros HC. unfold Worktree_Commit in HC.
  destruct (Validate_Parents (w_r w)) as [parents|]; [|by simplify_eq].
  set (w1 := if All opts then autoAddModifiedAndDeleted w else w) in HC.
  assert (wt (w_r w1) = wt (w_r w) /\ Filesystem w1 = Filesystem w) as [Hwt Hfs]
    by (subst w1; by destruct (All opts)).
  destruct (refuse_empty _ _ _ _); [by simplify_eq|].
  set (c := {| Author := CommitAuthor opts; Committer := CommitAuthor opts; Message := msg;
               TreeHash := hash_object (TreeObject (Index (Storer (w_r w1))));
               ParentHashes := parents |}) in HC.
  unfold updateHEAD in HC. destruct (Storer_Reference _ HEAD); cbn in HC; [|by simplify_eq].
  simplify_eq. exists c. cbn. split_and!; try done.
  - by rewrite lookup_insert_eq.
  - rewrite lookup_insert_ne, lookup_insert_eq; [done|].
    intros Heq. by apply hash_object_inj in Heq.
Qed.

(** The run of [CommitChangesInNewBranch] once HEAD resolved: the branch
    reference is written, everything is staged, and the commit is tried. *)
Lemma CommitChangesInNewBranch_run rule m commitTitle branchName r headRef :
  opens m r ->
  Head r = Ok headRef ->
  CommitChangesInNewBranch rule m commitTitle branchName =
    match wt r with
    | None =>
        (Err ("failed to get worktree: " +:+ ErrIsBareRepository),
         Some (with_Storer r
                 (with_References (Storer r)
                    (<[NewBranchReferenceName branchName := HashContent (RefHash headRef)]>
                       (References (Storer r))))))
    | Some fs =>
        match Worktree_Commit rule (staged r fs branchName (RefHash headRef))
                              commitTitle cOpts with
        | (Err err, w') => (Err ("failed to commit changes: " +:+ err), Some (w_r w'))
        | (Ok _, w') => (Ok "successfully committed changes", Some (w_r w'))
        end
    end.
Proof.
  intros (local & HE & HO) HHead. unfold CommitChangesInNewBranch.
  rewrite HE, HO, HHead. cbn [SetReference NewHashReference Name content_of].
  unfold Repository_Worktree. cbn [wt with_Storer]. by destruct (wt r).
Qed.

Lemma staged_References r fs branchName h :
  References (Storer (w_r (staged r fs branchName h)))
    = <[NewBranchReferenceName branchName := HashContent h]> (References (Storer r)).
Proof. done. Qed.

Lemma staged_moved_by_commit r fs branchName h target :
  References (Storer r) !! HEAD = Some (SymbolicContent target) ->
  moved_by_commit (w_r (staged r fs branchName h)) = target.
Proof.
  intros HH. unfold moved_by_commit. rewrite staged_References.
  rewrite lookup_insert_ne by apply NewBranchReferenceName_not_HEAD.
  by rewrite HH.
Qed.

(** X11. [CommitChangesInNewBranch] never switches branches: when HEAD
    names a branch before the call it names the same branch after it,
    whether the call succeeds or fails; [branchName] is never checked
    out. *)
Theorem CommitChangesInNewBranch_keeps_HEAD
    rule m commitTitle branchName r target res r' :
  opens m r ->
  References (Storer r) !! HEAD = Some (SymbolicContent target) ->
  CommitChangesInNewBranch rule m commitTitle branchName = (res, Some r') ->
  References (Storer r') !! HEAD = Some (SymbolicContent target).
Proof.
  intros Ho HH Hrun. destruct (Head r) as [headRef|e] eqn:HHead.
  - pose proof (Head_not_self r headRef target HHead HH) as Hne.
    rewrite (CommitChangesInNewBranch_run rule m commitTitle branchName r headRef Ho HHead)
      in Hrun.
    destruct (wt r) as [fs|].
    + destruct (Worktree_Commit _ _ _ _) as [res' w'] eqn:HC.
      apply Worktree_Commit_References in HC as [Hframe _].
      rewrite (staged_moved_by_commit r fs branchName _ target HH) in Hframe.
      assert (References (Storer (w_r w')) !! HEAD = Some (SymbolicContent target)) as Hw'.
      { rewrite Hframe by done. rewrite staged_References.
        rewrite lookup_insert_ne by apply NewBranchReferenceName_not_HEAD.
        done. }
      destruct res'; by simplify_eq.
    + simplify_eq. cbn.
      by rewrite lookup_insert_ne by apply NewBranchReferenceName_not_HEAD.
  - destruct Ho as (local & HE & HO). unfold CommitChangesInNewBranch in Hrun.
    rewrite HE, HO, HHead in Hrun. by simplify_eq.
Qed.

Lemma CommitChangesInNewBranch_keeps_HEAD_witness :
  let out := CommitChangesInNewBranch RefuseUnchangedTree (Sample.gh_on Sample.edited)
               "Update file" "feature" in
  References (Storer (default Sample.edited out.2)) !! HEAD
    = Some (SymbolicContent "refs/heads/master").
Proof.
  cbv zeta.
  apply (CommitChangesInNewBranch_keeps_HEAD RefuseUnchangedTree
           (Sample.gh_on Sample.edited) "Update file" "feature" Sample.edited
           "refs/heads/master" (Ok "successfully committed changes")).
  - eexists. split; reflexivity.
  - vm_compute. reflexivity.
  - apply run_succeeded; vm_compute; reflexivity.
Defined.



(** X13. When [CommitChangesInNewBranch] succeeds, the reference that
    received the new commit is the branch HEAD named when the call
    started, and the stored commit carries the title: the branch named in
    the call receives it only if HEAD already named that branch. *)
Theorem CommitChangesInNewBranch_commit_lands_on_HEAD_branch
    rule m commitTitle branchName r target msg r' :
  opens m r ->
  References (Storer r) !! HEAD = Some (SymbolicContent target) ->
  CommitChangesInNewBranch rule m commitTitle branchName = (Ok msg, Some r') ->
  exists hnew c,
    References (Storer r') !! target = Some (HashContent hnew) /\
    Objects (Storer r') !! hnew = Some (CommitObject c) /\
    Message c = commitTitle.
Proof.
  intros Ho HH Hrun. destruct (Head r) as [headRef|e] eqn:HHead.
  - rewrite (CommitChangesInNewBranch_run rule m commitTitle branchName r headRef Ho HHead)
      in Hrun.
    destruct (wt r) as [fs|]; [|by simplify_eq].
    destruct (Worktree_Commit _ _ _ _) as [[hnew|e] w'] eqn:HC; [|by simplify_eq].
    destruct (Worktree_Commit_stores _ _ _ _ _ _ HC) as (c & Hc & Hmsg & _).
    apply Worktree_Commit_References in HC as [_ Hmoved].
    rewrite (staged_moved_by_commit r fs branchName _ target HH) in Hmoved.
    simplify_eq. exists hnew, c. split_and!; [by apply Hmoved|done|done].
  - destruct Ho as (local & HE & HO). unfold CommitChangesInNewBranch in Hrun.
    rewrite HE, HO, HHead in Hrun. by simplify_eq.
Qed.

Lemma CommitChangesInNewBranch_commit_lands_on_HEAD_branch_witness :
  let out := CommitChangesInNewBranch RefuseUnchangedTree (Sample.gh_on Sample.edited)
               "Update file" "feature" in
  exists hnew c,
    References (Storer (default Sample.edited out.2)) !! "refs/heads/master"
      = Some (HashContent hnew) /\
    Objects (Storer (default Sample.edited out.2)) !! hnew = Some (CommitObject c) /\
    Message c = "Update file".
Proof.
  cbv zeta.
  apply (CommitChangesInNewBranch_commit_lands_on_HEAD_branch RefuseUnchangedTree
           (Sample.gh_on Sample.edited) "Update file" "feature" Sample.edited
           "refs/heads/master" "successfully committed changes").
  - eexists. split; reflexivity.
  - vm_compute. reflexivity.
  - apply run_succeeded; vm_compute; reflexivity.
Defined.

(** X14. When [CommitChangesInNewBranch] succeeds on a worktree, the tree
    of the commit HEAD resolves to is the whole worktree as the call found
    it: every file in it, tracked before or not, and no file it lacks,
    whatever the index held. The worktree itself is left as it was, and
    the index ends equal to it. *)
Theorem CommitChangesInNewBranch_commits_whole_worktree
    rule m commitTitle branchName r fs msg r' :
  opens m r ->
  wt r = Some fs ->
  CommitChangesInNewBranch rule m commitTitle branchName = (Ok msg, Some r') ->
  exists hnew c,
    points_to (Storer r') HEAD hnew /\
    Objects (Storer r') !! hnew = Some (CommitObject c) /\
    TreeHash c = hash_object (TreeObject fs) /\
    Objects (Storer r') !! TreeHash c = Some (TreeObject fs) /\
    Index (Storer r') = fs /\
    wt r' = Some fs.
Proof.
  intros Ho Hwt Hrun. destruct (Head r) as [headRef|e] eqn:HHead.
  - rewrite (CommitChangesInNewBranch_run rule m commitTitle branchName r headRef Ho HHead),
      Hwt in Hrun.
    destruct (Worktree_Commit _ _ _ _) as [[hnew|e] w'] eqn:HC; [|by simplify_eq].
    assert (points_to (Storer (w_r (staged r fs branchName (RefHash headRef)))) HEAD
                      (RefHash headRef)) as Hpre.
    { apply points_to_with_Index, points_to_set_hash. by exists headRef. }
    destruct (Worktree_Commit_ok _ _ _ _ _ _ _ Hpre HC)
      as (c & _ & Hc & _ & _ & _ & _ & Htree & HH').
    destruct (Worktree_Commit_stores _ _ _ _ _ _ HC) as (c' & Hc' & _ & Hobj & Hwt' & _).
    assert (c' = c) as -> by congruence.
    assert (Index (Storer (w_r w')) = fs) as Hidx.
    { by apply (Worktree_Commit_Index rule (staged r fs branchName (RefHash headRef))
                  commitTitle cOpts (Ok hnew) w'). }
    rewrite Hidx in *. simplify_eq. exists hnew, c. split_and!; try done.
    by rewrite Hwt'.
  - destruct Ho as (local & HE & HO). unfold CommitChangesInNewBranch in Hrun.
    rewrite HE, HO, HHead in Hrun. by simplify_eq.
Qed.

Lemma CommitChangesInNewBranch_commits_whole_worktree_witness :
  let out := CommitChangesInNewBranch RefuseUnchangedTree
               (Sample.gh_on SampleBranches.with_notes) "Add notes" "feature" in
  let r' := default SampleBranches.with_notes out.2 in
  exists hnew c,
    points_to (Storer r') HEAD hnew /\
    Objects (Storer r') !! hnew = Some (CommitObject c) /\
    TreeHash c = hash_object (TreeObject SampleBranches.with_notes_fs) /\
    Objects (Storer r') !! TreeHash c = Some (TreeObject SampleBranches.with_notes_fs) /\
    Index (Storer r') = SampleBranches.with_notes_fs /\
    wt r' = Some SampleBranches.with_notes_fs.
Proof.
  cbv zeta.
  apply (CommitChangesInNewBranch_commits_whole_worktree RefuseUnchangedTree
           (Sample.gh_on SampleBranches.with_notes) "Add notes" "feature"
           SampleBranches.with_notes SampleBranches.with_notes_fs
           "successfully committed changes").
  - eexists. split; reflexivity.
  - reflexivity.
  - apply run_succeeded; vm_compute; reflexivity.
Defined.

(** *** What the checkout of the base branch leaves *)







End Branches.

(** ** More on the Istio modules *)

Section IstioMore.

Implicit Types (m : Istio) (a b latest local : Version).

Lemma versionRegex_v (s : string) :
  strip_char "v" s = None -> versionRegex (String "v" s) = versionRegex s.
Proof. intros Hs. unfold versionRegex. by rewrite Hs. Qed.

(** A leading [v] changes nothing of a parse but the [original] field. *)
Lemma NewVersion_v (s : string) :
  strip_char "v" s = None ->
  match NewVersion (String "v" s), NewVersion s with
  | Ok a, Ok b => semver_equal a b
  | Err e, Err e' => e = e'
  | _, _ => False
  end.
Proof.
  intros Hs. unfold NewVersion. rewrite (versionRegex_v s Hs).
  destruct (versionRegex s) as [[[[[m1 m2] m3] p_] meta]|]; [|done].
  destruct (parse_segment m1); [|done].
  destruct (if bool_decide (m2 = EmptyString) then _ else _); [|done].
  destruct (if bool_decide (m3 = EmptyString) then _ else _); [|done].
  by split_and!.
Qed.

Lemma Compare_semver_equal a a' b b' :
  semver_equal a a' -> semver_equal b b' -> Compare a b = Compare a' b'.
Proof.
  intros (Ha1 & Ha2 & Ha3 & Ha4) (Hb1 & Hb2 & Hb3 & Hb4). unfold Compare.
  by rewrite Ha1, Ha2, Ha3, Ha4, Hb1, Hb2, Hb3, Hb4.
Qed.

Lemma semver_equal_refl a : semver_equal a a.
Proof. by split_and!. Qed.

(** The answer of [IsNewerVersion] is a function of the two parses up to
    the fields a comparison reads. *)
Lemma IsNewerVersion_congruence m m' :
  match NewVersion (LatestVersion m), NewVersion (LatestVersion m') with
  | Ok a, Ok b => semver_equal a b
  | Err e, Err e' => e = e'
  | _, _ => False
  end ->
  match NewVersion (LocalVersion m), NewVersion (LocalVersion m') with
  | Ok a, Ok b => semver_equal a b
  | Err e, Err e' => e = e'
  | _, _ => False
  end ->
  IsNewerVersion m = IsNewerVersion m'.
Proof.
  unfold IsNewerVersion. intros Hl Ho.
  destruct (NewVersion (LatestVersion m)) as [a|e], (NewVersion (LatestVersion m')) as [a'|e'];
    try done; [|by subst].
  destruct (NewVersion (LocalVersion m)) as [b|e], (NewVersion (LocalVersion m')) as [b'|e'];
    try done; [|by subst].
  by rewrite (Compare_semver_equal a a' b b').
Qed.

Lemma NewVersion_same (s : string) :
  match NewVersion s, NewVersion s with
  | Ok a, Ok b => semver_equal a b
  | Err e, Err e' => e = e'
  | _, _ => False
  end.
Proof. destruct (NewVersion s); [apply semver_equal_refl|done]. Qed.

(** X17. A leading [v] on either version string, as GitHub release tags
    often carry, changes nothing of the answer of [IsNewerVersion], be it
    true, false or an error; a second [v] is not accepted, so the strings
    must not start with one already. *)
Theorem IsNewerVersion_v_prefix (latest local : string) (cm : File) :
  strip_char "v" latest = None ->
  strip_char "v" local = None ->
  let ask := fun (x y : string) =>
    IsNewerVersion {| LatestVersion := x; LocalVersion := y; ConfigMap := cm |} in
  ask ("v" +:+ latest) local = ask latest local /\
  ask latest ("v" +:+ local) = ask latest local /\
  ask ("v" +:+ latest) ("v" +:+ local) = ask latest local.
Proof.
  intros Hl Ho. cbv zeta beta.
  change ("v" +:+ latest) with (String "v" latest).
  change ("v" +:+ local) with (String "v" local).
  split_and!; apply IsNewerVersion_congruence; cbn [LatestVersion LocalVersion];
    first [by apply NewVersion_v | apply NewVersion_same].
Qed.

Lemma IsNewerVersion_v_prefix_witness :
  let ask := fun (x y : string) =>
    IsNewerVersion {| LatestVersion := x; LocalVersion := y;
                      ConfigMap := SampleRelease.cm |} in
  ask ("v" +:+ "1.21.0") "1.20.0" = ask "1.21.0" "1.20.0" /\
  ask "1.21.0" ("v" +:+ "1.20.0") = ask "1.21.0" "1.20.0" /\
  ask ("v" +:+ "1.21.0") ("v" +:+ "1.20.0") = ask "1.21.0" "1.20.0".
Proof.
  apply (IsNewerVersion_v_prefix "1.21.0" "1.20.0" SampleRelease.cm); reflexivity.
Defined.

(** X18. [ReturnUpdatedCm] does not refresh [LocalVersion]: after an
    update, a second call on the same receiver does not answer that no
    update is needed; under the round-trip law of the yaml codec it
    rewrites the file again, to the same text, and leaves the receiver as
    the first call left it. *)
Theorem ReturnUpdatedCm_again
    (Unmarshal : string -> Result IstioVersionCm) (Marshal : IstioVersionCm -> Result string)
    m newContent m' :
  (forall d s, Marshal d = Ok s -> Unmarshal s = Ok d) ->
  IsNewerVersion m = Ok true ->
  ReturnUpdatedCm Unmarshal Marshal m = (Ok newContent, m') ->
  LocalVersion m' = LocalVersion m /\
  IsNewerVersion m' = Ok true /\
  ReturnUpdatedCm Unmarshal Marshal m' = (Ok newContent, m').
Proof.
  intros Hround Hnewer Hrun. unfold ReturnUpdatedCm in Hrun. rewrite Hnewer in Hrun.
  cbn [negb] in Hrun.
  destruct (Contents (ConfigMap m)) as [content|]; [|by simplify_eq].
  destruct (Unmarshal content) as [d|]; [|by simplify_eq].
  destruct (Marshal (set_Data_Version d (LatestVersion m))) as [s|] eqn:HM; [|by simplify_eq].
  simplify_eq. split; [done|].
  assert (IsNewerVersion (set_ConfigMap_contents m newContent) = Ok true) as Hnewer'
    by exact Hnewer.
  split; [done|]. unfold ReturnUpdatedCm. rewrite Hnewer'.
  cbn [negb set_ConfigMap_contents ConfigMap Contents LatestVersion].
  rewrite (Hround _ _ HM).
  change (set_Data_Version (set_Data_Version d (LatestVersion m)) (LatestVersion m))
    with (set_Data_Version d (LatestVersion m)).
  by rewrite HM.
Qed.

Lemma ReturnUpdatedCm_again_witness :
  let newContent := LineCodec.render (set_Data_Version SampleIstio.doc "1.21.0") in
  let m' := set_ConfigMap_contents SampleIstio.behind newContent in
  LocalVersion m' = "1.20.0" /\
  IsNewerVersion m' = Ok true /\
  ReturnUpdatedCm LineCodec.Unmarshal LineCodec.Marshal m' = (Ok newContent, m').
Proof.
  apply (ReturnUpdatedCm_again LineCodec.Unmarshal LineCodec.Marshal SampleIstio.behind).
  - exact LineCodec_round_trip.
  - vm_compute. reflexivity.
  - vm_compute. reflexivity.
Defined.



End IstioMore.

(** ** The constructor of the Istio module *)

Section Constructor.

Variable Unmarshal : string -> Result IstioVersionCm.
Variable Marshal : IstioVersionCm -> Result string.
Variable http_Get : string -> Result (Result string).
Variable json_Unmarshal : string -> Result IstioSetup.Release.

(** What [New] returns when the file and the release are read. *)
Lemma New_returns (cm : File) (content body : string) (d : IstioVersionCm)
    (release : IstioSetup.Release) :
  Contents cm = Ok content ->
  Unmarshal content = Ok d ->
  http_Get "https://api.github.com/repos/istio/istio/releases/latest" = Ok (Ok body) ->
  json_Unmarshal body = Ok release ->
  IstioSetup.New Unmarshal http_Get json_Unmarshal cm
    = Returns {| LatestVersion := IstioSetup.TagName release;
                 LocalVersion := DataVersion (CmData d);
                 ConfigMap := cm |}.
Proof.
  intros Hc Hd Hg Hj. unfold IstioSetup.New, IstioSetup.setLocalVersion.
  cbn [ConfigMap]. rewrite Hc, Hd. unfold IstioSetup.setLatestVersion.
  change ("https://api.github.com/repos/" +:+ "istio" +:+ "/" +:+ "istio" +:+ "/releases/latest")
    with "https://api.github.com/repos/istio/istio/releases/latest".
  by rewrite Hg, Hj.
Qed.

(** X20. [New] does not validate the release tag: whenever the file
    parses and the body of the response decodes, it returns, and a tag
    that is no version (the empty tag of a body without [tag_name], for
    one) surfaces only later, as the error of [IsNewerVersion] and of
    [ReturnUpdatedCm], which leaves the module as it was. *)
Theorem New_defers_validation (cm : File) (content body : string) (d : IstioVersionCm)
    (release : IstioSetup.Release) (e : error) :
  Contents cm = Ok content ->
  Unmarshal content = Ok d ->
  http_Get "https://api.github.com/repos/istio/istio/releases/latest" = Ok (Ok body) ->
  json_Unmarshal body = Ok release ->
  NewVersion (IstioSetup.TagName release) = Err e ->
  exists m,
    IstioSetup.New Unmarshal http_Get json_Unmarshal cm = Returns m /\
    IsNewerVersion m = Err ("failed to parse latest version: " +:+ e) /\
    ReturnUpdatedCm Unmarshal Marshal m
      = (Err ("failed to check if newer version: failed to parse latest version: " +:+ e), m).
Proof.
  intros Hc Hd Hg Hj He. eexists. split; [by apply (New_returns cm content body d release)|].
  assert (IsNewerVersion {| LatestVersion := IstioSetup.TagName release;
                            LocalVersion := DataVersion (CmData d); ConfigMap := cm |}
          = Err ("failed to parse latest version: " +:+ e)) as Hnewer
    by (unfold IsNewerVersion; cbn [LatestVersion]; by rewrite He).
  split; [done|]. unfold ReturnUpdatedCm. by rewrite Hnewer.
Qed.


End Constructor.

Lemma New_defers_validation_witness :
  exists m,
    IstioSetup.New LineCodec.Unmarshal (SampleRelease.get "") SampleRelease.decode
                   SampleRelease.cm = Returns m /\
    IsNewerVersion m = Err ("failed to parse latest version: " +:+ ErrInvalidSemVer) /\
    ReturnUpdatedCm LineCodec.Unmarshal LineCodec.Marshal m
      = (Err ("failed to check if newer version: failed to parse latest version: "
              +:+ ErrInvalidSemVer), m).
Proof.
  apply (New_defers_validation LineCodec.Unmarshal LineCodec.Marshal
           (SampleRelease.get "") SampleRelease.decode SampleRelease.cm
           (LineCodec.render SampleIstio.doc) "" SampleIstio.doc
           {| IstioSetup.TagName := ""; IstioSetup.ReleaseName := "Istio " |});
    vm_compute; reflexivity.
Defined.


(** ** More on CreatePullRequest *)

Section PullRequest.

Variable service : Service.
Variable Sprint_Body : string -> string.

(** X22. An empty [baseBranch] stands for the module's base branch: the
    call with the empty string and the call that names [BaseBranch] send
    the same request and end the same way. *)
Theorem CreatePullRequest_default_base (m : Gh) (title newBranch : string) :
  CreatePullRequest service Sprint_Body m title newBranch ""
    = CreatePullRequest service Sprint_Body m title newBranch (BaseBranch m).
Proof.
  unfold CreatePullRequest. destruct (Plaintext (Token m)); [|done].
  rewrite decide_True by done. by destruct (decide (BaseBranch m = "")) as [->|].
Qed.

(** X23. [CreatePullRequest] panics in one case only: the token is read
    and the service hands back an error without a response. In every
    other case it returns, an error or the success message. *)
Theorem CreatePullRequest_panics_iff (m : Gh) (title newBranch baseBranch msg : string) :
  CreatePullRequest service Sprint_Body m title newBranch baseBranch = Panics msg <->
  msg = nil_dereference /\
  exists token err,
    Plaintext (Token m) = Ok token /\
    service token (Owner m) (Repo m)
            {| Title := title; PRHead := newBranch;
               Base := if decide (baseBranch = "") then BaseBranch m else baseBranch |}
      = (None, Some err).
Proof.
  unfold CreatePullRequest. destruct (Plaintext (Token m)) as [token|e].
  2: { split; [done|]. by intros (_ & ? & ? & ? & _). }
  destruct (service token _ _ _) as [[rsp|] [err|]] eqn:Hcall; cbn.
  - split; [done|]. intros (_ & ? & ? & [= <-] & Hc). rewrite Hcall in Hc. done.
  - split; [done|]. intros (_ & ? & ? & [= <-] & Hc). rewrite Hcall in Hc. done.
  - split.
    + intros [= <-]. split; [done|]. by exists token, err.
    + by intros [-> _].
  - split; [done|]. intros (_ & ? & ? & [= <-] & Hc). rewrite Hcall in Hc. done.
Qed.

End PullRequest.
